(** * Fruit-logistics client: marker store, marker form, CSV import, submission

    A shallow embedding of the client's JavaScript sources:

    - [CsvImporter]   the row mapper of the CSV importer's [complete] callback;
    - [Formulario]    the marker form (type toggle, quantity, fruit search, tags);
    - [MapComponentWeb], [MapComponentNative]
                      the two map views with their [handleSave]/[handleDelete];
    - [Connection]    the [submit] call of the submission client;
    - [App]           the screen that wires them over the shared marker store.

    JavaScript values are modelled as the code has them: strings are sequences
    of UTF-16 code units, arrays may have empty slots, a missing object
    property is [None], a thrown exception is the left summand of a sum. *)

From Stdlib Require Import ZArith NArith Lia.
From stdpp Require Import base list strings.

Local Open Scope N_scope.

(** ** JavaScript built-ins used by the client *)

Module JS.

(** A string is its sequence of UTF-16 code units. *)
Abbreviation jsstring := (list N).

(** Source text in this file is UTF-8; [js] turns a literal into the code
    units the JavaScript engine sees (one-, two- and three-byte sequences,
    which is the whole Basic Multilingual Plane). *)
Fixpoint utf16_of_utf8 (bytes : list N) : jsstring :=
  match bytes with
  | [] => []
  | b0 :: r0 =>
    if b0 <? 0x80 then b0 :: utf16_of_utf8 r0
    else match r0 with
         | [] => []
         | b1 :: r1 =>
           if b0 <? 0xE0
           then ((b0 mod 0x20) * 0x40 + b1 mod 0x40) :: utf16_of_utf8 r1
           else match r1 with
                | [] => []
                | b2 :: r2 =>
                  ((b0 mod 0x10) * 0x1000 + (b1 mod 0x40) * 0x40 + b2 mod 0x40)
                    :: utf16_of_utf8 r2
                end
         end
  end.

Definition js (s : string) : jsstring :=
  utf16_of_utf8 (map Ascii.N_of_ascii (String.list_ascii_of_string s)).

Fixpoint jsstring_eqb (s t : jsstring) : bool :=
  match s, t with
  | [], [] => true
  | c :: s', d :: t' => (c =? d) && jsstring_eqb s' t'
  | _, _ => false
  end.

(** [WhiteSpace] and [LineTerminator] code points, as stripped by
    [String.prototype.trim] and skipped by [parseInt]. *)
Definition isWhiteSpace (c : N) : bool :=
  ((0x09 <=? c) && (c <=? 0x0D)) || (c =? 0x20) || (c =? 0xA0)
  || (c =? 0x1680) || ((0x2000 <=? c) && (c <=? 0x200A))
  || (c =? 0x2028) || (c =? 0x2029) || (c =? 0x202F) || (c =? 0x205F)
  || (c =? 0x3000) || (c =? 0xFEFF).

Fixpoint trimStart (s : jsstring) : jsstring :=
  match s with
  | c :: s' => if isWhiteSpace c then trimStart s' else s
  | [] => []
  end.

Definition trimEnd (s : jsstring) : jsstring :=
  reverse (trimStart (reverse s)).

Definition trim (s : jsstring) : jsstring := trimEnd (trimStart s).

(** [String.prototype.toLowerCase]. The Unicode lower-case mapping is given
    here on the code units below 256 (Basic Latin and Latin-1 Supplement),
    where it acts unit by unit: A-Z and the accented capitals U+00C0..U+00DE
    (U+00D7, the multiplication sign, apart) move up by 32. Units from 256 on
    are returned as they are; statements that lower-case an arbitrary input
    therefore ask that input to be [latin1]. *)
Definition lowerUnit (c : N) : N :=
  if (0x41 <=? c) && (c <=? 0x5A) then c + 0x20
  else if (0xC0 <=? c) && (c <=? 0xDE) && negb (c =? 0xD7) then c + 0x20
  else c.

Definition toLowerCase (s : jsstring) : jsstring := map lowerUnit s.

Definition latin1 (s : jsstring) : Prop := Forall (λ c, c < 256) s.

(** [String.prototype.startsWith] and [String.prototype.includes]. *)
Fixpoint startsWith (s t : jsstring) {struct t} : bool :=
  match t, s with
  | [], _ => true
  | d :: t', c :: s' => (c =? d) && startsWith s' t'
  | _ :: _, [] => false
  end.

Fixpoint includes (s t : jsstring) : bool :=
  startsWith s t ||
  match s with
  | [] => false
  | _ :: s' => includes s' t
  end.

(** [Array.prototype.includes] on an array of strings. *)
Fixpoint arrayIncludes (a : list jsstring) (x : jsstring) : bool :=
  match a with
  | [] => false
  | y :: a' => jsstring_eqb y x || arrayIncludes a' x
  end.

(** [String.prototype.split] with a one-unit separator: the pieces between
    the separators, in order; always at least one piece. *)
Fixpoint split (sep : N) (s : jsstring) : list jsstring :=
  match s with
  | [] => [[]]
  | c :: s' =>
    if c =? sep then [] :: split sep s'
    else match split sep s' with
         | piece :: rest => (c :: piece) :: rest
         | [] => [[c]]
         end
  end.

(** Numbers that the client computes itself are integers, [NaN] or an
    infinity. Negative zero is not told apart from zero. *)
Inductive Number : Type :=
  | NaN
  | Infinity (negative : bool)
  | Int (z : Z).

(** The Number for a non-negative mathematical integer: the nearest double,
    ties to even, or infinity past the largest double. Integers below 2^53
    are exact. *)
Definition roundToDouble (n : Z) : option Z :=
  let k := Z.log2 n in
  if (k <? 53)%Z then Some n
  else
    let e := (k - 52)%Z in
    let q := Z.shiftr n e in
    let r := (n - Z.shiftl q e)%Z in
    let half := Z.shiftl 1 (e - 1) in
    let q' := if (half <? r)%Z || ((r =? half)%Z && Z.odd q)
              then (q + 1)%Z else q in
    let v := Z.shiftl q' e in
    if (Z.shiftl 1 1024 <=? v)%Z then None else Some v.

Definition toNumber (negative : bool) (magnitude : Z) : Number :=
  match roundToDouble magnitude with
  | Some v => Int (if negative then - v else v)
  | None => Infinity negative
  end.

(** The value of a code unit as a digit: 0-9, then a-z and A-Z for 10..35. *)
Definition digitValue (c : N) : option Z :=
  if (0x30 <=? c) && (c <=? 0x39) then Some (Z.of_N (c - 0x30))
  else if (0x61 <=? c) && (c <=? 0x7A) then Some (Z.of_N (c - 0x61 + 10))
  else if (0x41 <=? c) && (c <=? 0x5A) then Some (Z.of_N (c - 0x41 + 10))
  else None.

(** The longest prefix of [s] made of digits of radix [R], most significant
    digit first. *)
Fixpoint radixDigits (R : Z) (s : jsstring) : list Z :=
  match s with
  | [] => []
  | c :: s' =>
    match digitValue c with
    | Some d => if (d <? R)%Z then d :: radixDigits R s' else []
    | None => []
    end
  end.

Definition mathInt (R : Z) (ds : list Z) : Z :=
  foldl (λ acc d, acc * R + d)%Z 0%Z ds.

(** An optional sign in front of the digits. *)
Definition readSign (s : jsstring) : bool * jsstring :=
  match s with
  | 0x2D :: r => (true, r)
  | 0x2B :: r => (false, r)
  | _ => (false, s)
  end.

(** [parseInt(string, radix)] on a string argument: leading white space is
    skipped, one sign is read, a radix of 0 means 10, a radix outside 2..36
    gives [NaN], the prefix 0x/0X is dropped for radix 16 and for radix 0
    (which then reads hexadecimal), and the longest run of digits is read;
    no digit gives [NaN]. *)
Definition parseInt (s : jsstring) (radix : Z) : Number :=
  let '(negative, s2) := readSign (trimStart s) in
  if negb (radix =? 0)%Z && ((radix <? 2)%Z || (36 <? radix)%Z) then NaN
  else
    let hex :=
      ((radix =? 0)%Z || (radix =? 16)%Z) &&
      match s2 with
      | 0x30 :: x :: _ => (x =? 0x78) || (x =? 0x58)
      | _ => false
      end in
    let R := if hex then 16%Z else if (radix =? 0)%Z then 10%Z else radix in
    let s3 := if hex then drop 2 s2 else s2 in
    match radixDigits R s3 with
    | [] => NaN
    | ds => toNumber negative (mathInt R ds)
    end.

(** Arrays. A slot of an array is an element, the value [undefined], or
    empty (a hole left by an assignment past the end). *)
Inductive slot (A : Type) : Type :=
  | Hole
  | Undefined
  | Item (a : A).
Arguments Hole {A}.
Arguments Undefined {A}.
Arguments Item {A} a.

Abbreviation array A := (list (slot A)).

(** [[...a]]: a fresh array with the same elements; holes read as
    [undefined]. *)
Definition spread {A} (a : array A) : array A :=
  map (λ s, match s with Hole => Undefined | _ => s end) a.

(** [a[i] = v]: replaces slot [i]; past the end the array grows to length
    [i + 1] and the slots in between stay empty. *)
Definition assign {A} (a : array A) (i : nat) (v : A) : array A :=
  if decide (i < length a)%nat then <[i := Item v]> a
  else a ++ replicate (i - length a) Hole ++ [Item v].

(** [a.filter((x, i) => keep x i)]: holes are skipped, the callback sees the
    index in the original array, kept slots stay in order. *)
Fixpoint filterFrom {A} (keep : slot A → nat → bool) (i : nat) (a : array A)
  : array A :=
  match a with
  | [] => []
  | Hole :: a' => filterFrom keep (S i) a'
  | s :: a' =>
    if keep s i then s :: filterFrom keep (S i) a'
    else filterFrom keep (S i) a'
  end.

Definition filter {A} (keep : slot A → nat → bool) (a : array A) : array A :=
  filterFrom keep 0 a.

(** A dense array of the given elements. *)
Definition ofList {A} (l : list A) : array A := map Item l.

End JS.

(** ** The shared marker store (MakersContext.js) *)

Module MakersContext.
Import JS.

(** A coordinate is an IEEE double that the client stores and forwards but
    never computes with. The map widget delivers a finite double
    [mantissa * 2^exponent]; the CSV importer stores the value of the built-in
    [parseFloat] at a field, kept as that application ([None] for a missing
    field, which [parseFloat] reads as [NaN]). *)
Inductive double : Type :=
  | Dyadic (mantissa exponent : Z)
  | ParseFloat (field : option jsstring).

Record LatLng : Type := { lat : double; lng : double }.

(** The quantity a marker holds is whatever its producer stored: a Number or
    a string. *)
Inductive value : Type :=
  | VNumber (n : Number)
  | VString (s : jsstring).

(** A marker object [{ type, coords, frutas, quantidade }]; [coords] is
    [None] for [null]. *)
Record Marker : Type := {
  type : jsstring;
  coords : option LatLng;
  frutas : list jsstring;
  quantidade : value
}.

(** [useState([])] of the provider. *)
Definition markers0 : array Marker := [].

End MakersContext.

(** ** The CSV importer (CsvImporter.js) *)

Module CsvImporter.
Import JS MakersContext.

(** A row as the CSV parser delivers it with [header: true]: an object keyed
    by column name whose values are strings; a column that the header or the
    line lacks is a missing property. *)
Record Row : Type := {
  tipo : option jsstring;
  lat : option jsstring;
  long : option jsstring;
  produtos : option jsstring;
  quantidade : option jsstring
}.

(** Reading a property of [undefined] throws. *)
Inductive exn : Type := TypeError.

(** [row.tipo?.trim().toLowerCase() || "mercado"] *)
Definition rowType (row : Row) : jsstring :=
  match tipo row with
  | None => js "mercado"
  | Some t =>
    match toLowerCase (trim t) with
    | [] => js "mercado"
    | s => s
    end
  end.

(** [{ lat: parseFloat(row.lat), lng: parseFloat(row.long) }] *)
Definition rowCoords (row : Row) : LatLng :=
  {| MakersContext.lat := ParseFloat (lat row);
     MakersContext.lng := ParseFloat (long row) |}.

(** [row.produtos ? row.produtos.split(",").map((f) => f.trim()) : []] *)
Definition rowFrutas (row : Row) : list jsstring :=
  match produtos row with
  | None | Some [] => []
  | Some p => map trim (split 0x2C p)
  end.

(** [row.quantidade.trim().toLowerCase() || 10] *)
Definition rowQuantidade (row : Row) : exn + value :=
  match quantidade row with
  | None => inl TypeError
  | Some q =>
    match toLowerCase (trim q) with
    | [] => inr (VNumber (Int 10))
    | s => inr (VString s)
    end
  end.

(** The callback of [results.data.map]. *)
Definition rowToMarker (row : Row) : exn + Marker :=
  match rowQuantidade row with
  | inl e => inl e
  | inr q =>
    inr {| type := rowType row;
           coords := Some (rowCoords row);
           MakersContext.frutas := rowFrutas row;
           MakersContext.quantidade := q |}
  end.

(** [results.data.map(...)]: the first throwing row ends the whole map. *)
Fixpoint mapRows (rows : list Row) : exn + list Marker :=
  match rows with
  | [] => inr []
  | row :: rows' =>
    match rowToMarker row with
    | inl e => inl e
    | inr m =>
      match mapRows rows' with
      | inl e => inl e
      | inr ms => inr (m :: ms)
      end
    end
  end.

(** The [complete] callback: [onImport] receives the markers, unless the
    mapping threw, in which case the enclosing [catch] shows an alert and
    [onImport] is never called. *)
Definition complete (rows : list Row) : option (array Marker) :=
  match mapRows rows with
  | inl _ => None
  | inr ms => Some (ofList ms)
  end.

End CsvImporter.

(** ** The payload the form hands to [onSave] *)

Module SaveData.
Import JS MakersContext.

(** [{ tipo, coords, frutas: selecionadas, quantidade }] *)
Record Data : Type := {
  tipo : jsstring;
  coords : option LatLng;
  frutas : list jsstring;
  quantidade : jsstring
}.

End SaveData.

(** ** The marker form (Formulario.js) *)

Module Formulario.
Import JS MakersContext.

Definition frutasDisponiveis : list jsstring :=
  [ js "Maçã"; js "Banana"; js "Laranja"; js "Manga"; js "Abacaxi";
    js "Uva"; js "Melancia"; js "Pera"; js "Mamão"; js "Limão"; js "Kiwi" ].

Record Props : Type := {
  markerType : jsstring;
  coords : option LatLng;
  frutas : option (list jsstring)
}.

Record State : Type := {
  quantidade : jsstring;
  tipo : jsstring;
  busca : jsstring;
  selecionadas : list jsstring
}.

(** The four [useState] initial values. *)
Definition initial (props : Props) : State :=
  {| quantidade := []; tipo := markerType props; busca := [];
     selecionadas := [] |}.

(** The [useEffect] on [[markerType, frutas]]. *)
Definition effect (props : Props) (st : State) : State :=
  {| quantidade := quantidade st;
     tipo := markerType props;
     busca := busca st;
     selecionadas :=
       match coords props, frutas props with
       | Some _, Some fs => fs
       | _, _ => []
       end |}.

(** The form as first shown: mounted, then the effect has run. *)
Definition mount (props : Props) : State := effect props (initial props).

Definition setTipo (t : jsstring) (st : State) : State :=
  {| quantidade := quantidade st; tipo := t; busca := busca st;
     selecionadas := selecionadas st |}.

Definition setQuantidade (q : jsstring) (st : State) : State :=
  {| quantidade := q; tipo := tipo st; busca := busca st;
     selecionadas := selecionadas st |}.

Definition setBusca (b : jsstring) (st : State) : State :=
  {| quantidade := quantidade st; tipo := tipo st; busca := b;
     selecionadas := selecionadas st |}.

Definition frutasFiltradas (st : State) : list jsstring :=
  List.filter
    (λ f, includes (toLowerCase f) (toLowerCase (busca st))
          && negb (arrayIncludes (selecionadas st) f))
    frutasDisponiveis.

(** The suggestion list is rendered when
    [busca.length > 0 && frutasFiltradas.length > 0]. *)
Definition sugestoes (st : State) : list jsstring :=
  match busca st with
  | [] => []
  | _ => frutasFiltradas st
  end.

Definition adicionarFruta (fruta : jsstring) (st : State) : State :=
  {| quantidade := quantidade st; tipo := tipo st; busca := [];
     selecionadas := selecionadas st ++ [fruta] |}.

Definition removerFruta (fruta : jsstring) (st : State) : State :=
  {| quantidade := quantidade st; tipo := tipo st; busca := busca st;
     selecionadas :=
       List.filter (λ f, negb (jsstring_eqb f fruta)) (selecionadas st) |}.

(** The argument [salvar] passes to [onSave]. *)
Definition salvar (props : Props) (st : State) : SaveData.Data :=
  {| SaveData.tipo := tipo st;
     SaveData.coords := coords props;
     SaveData.frutas := selecionadas st;
     SaveData.quantidade := quantidade st |}.

End Formulario.

(** ** The map views (MapComponent.web.js, MapComponent.native.js) *)

Module MapComponent.
Import JS MakersContext.

(** The state a map view reads and writes: the shared [markers] of the
    context and its own [useState] cells. (The native view also declares a
    [quantidade] cell that nothing reads or sets.) *)
Record State : Type := {
  markers : array Marker;
  showForm : bool;
  markerType : jsstring;
  newMarkerCoords : option LatLng;
  selectedMarkerIndex : option nat;
  frutas : option (list jsstring)
}.

(** The marker object both [handleSave]s build from the form's payload. *)
Definition saved (data : SaveData.Data) : Marker :=
  let quantidadeNumerica := parseInt (SaveData.quantidade data) 10 in
  {| type := SaveData.tipo data;
     coords := SaveData.coords data;
     MakersContext.frutas := SaveData.frutas data;
     quantidade := VNumber quantidadeNumerica |}.

(** The [useEffect] on [[importedMarkers]]: [setMarkers(importedMarkers)]. *)
Definition imported (importedMarkers : array Marker) (st : State) : State :=
  {| markers := importedMarkers;
     showForm := showForm st;
     markerType := markerType st;
     newMarkerCoords := newMarkerCoords st;
     selectedMarkerIndex := selectedMarkerIndex st;
     frutas := frutas st |}.

(** A press on the map away from any marker (the two views set the same
    cells, in a different order). *)
Definition pressMap (coords : LatLng) (st : State) : State :=
  {| markers := markers st;
     showForm := true;
     markerType := js "mercado";
     newMarkerCoords := Some coords;
     selectedMarkerIndex := None;
     frutas := None |}.

(** A press on the marker rendered for element [m] at index [i]. *)
Definition pressMarker (i : nat) (m : Marker) (st : State) : State :=
  {| markers := markers st;
     showForm := true;
     markerType := type m;
     newMarkerCoords := coords m;
     selectedMarkerIndex := Some i;
     frutas := Some (MakersContext.frutas m) |}.

(** [markers.filter((_, i) => i !== selectedMarkerIndex)] *)
Definition without (i : nat) (ms : array Marker) : array Marker :=
  JS.filter (λ _ j, negb (j =? i)%nat) ms.

(** The props the view passes to the form. *)
Definition formProps (st : State) : Formulario.Props :=
  {| Formulario.markerType := markerType st;
     Formulario.coords := newMarkerCoords st;
     Formulario.frutas := frutas st |}.

End MapComponent.

Module MapComponentWeb.
Import JS MakersContext MapComponent.

Definition handleSave (data : SaveData.Data) (st : State) : State :=
  {| markers :=
       match selectedMarkerIndex st with
       | Some i =>
         let updatedMarkers := assign (spread (markers st)) i (saved data) in
         updatedMarkers
       | None => spread (markers st) ++ [Item (saved data)]
       end;
     showForm := false;
     markerType := markerType st;
     newMarkerCoords := newMarkerCoords st;
     selectedMarkerIndex := None;
     frutas := frutas st |}.

Definition handleDelete (st : State) : State :=
  match selectedMarkerIndex st with
  | Some i =>
    {| markers := without i (markers st);
       showForm := false;
       markerType := markerType st;
       newMarkerCoords := newMarkerCoords st;
       selectedMarkerIndex := None;
       frutas := frutas st |}
  | None =>
    {| markers := markers st;
       showForm := false;
       markerType := markerType st;
       newMarkerCoords := newMarkerCoords st;
       selectedMarkerIndex := selectedMarkerIndex st;
       frutas := frutas st |}
  end.

(** [onClose={() => setShowForm(false)}] *)
Definition onClose (st : State) : State :=
  {| markers := markers st;
     showForm := false;
     markerType := markerType st;
     newMarkerCoords := newMarkerCoords st;
     selectedMarkerIndex := selectedMarkerIndex st;
     frutas := frutas st |}.

End MapComponentWeb.

Module MapComponentNative.
Import JS MakersContext MapComponent.

(** With an index selected the updated copy is built and dropped: there is
    no [setMarkers] call on that branch. *)
Definition handleSave (data : SaveData.Data) (st : State) : State :=
  {| markers :=
       match selectedMarkerIndex st with
       | Some i =>
         let updatedMarkers := assign (spread (markers st)) i (saved data) in
         markers st
       | None => spread (markers st) ++ [Item (saved data)]
       end;
     showForm := false;
     markerType := markerType st;
     newMarkerCoords := newMarkerCoords st;
     selectedMarkerIndex := None;
     frutas := frutas st |}.

Definition handleDelete (st : State) : State :=
  match selectedMarkerIndex st with
  | Some i =>
    {| markers := without i (markers st);
       showForm := false;
       markerType := markerType st;
       newMarkerCoords := newMarkerCoords st;
       selectedMarkerIndex := None;
       frutas := frutas st |}
  | None =>
    {| markers := markers st;
       showForm := false;
       markerType := markerType st;
       newMarkerCoords := newMarkerCoords st;
       selectedMarkerIndex := selectedMarkerIndex st;
       frutas := frutas st |}
  end.

(** [onClose={() => { setShowForm(false); setSelectedMarkerIndex(null); }}] *)
Definition onClose (st : State) : State :=
  {| markers := markers st;
     showForm := false;
     markerType := markerType st;
     newMarkerCoords := newMarkerCoords st;
     selectedMarkerIndex := None;
     frutas := frutas st |}.

End MapComponentNative.

(** ** The submission client (connection.js) *)

Module Connection.
Import JS MakersContext.

Record RequestInit : Type := {
  method : jsstring;
  headers : list (jsstring * jsstring);
  body : jsstring
}.

Section Fetch.
(** The platform's [Response] objects and [JSON.stringify] on a marker
    array are taken as given. *)
Context {Response : Type}.
Variable stringify : array Marker → jsstring.

(** An asynchronous computation: it has resolved, or it waits for the
    response to one [fetch] and goes on from there. *)
Inductive Async (A : Type) : Type :=
  | Resolved (a : A)
  | Fetch (url : jsstring) (init : RequestInit) (k : Response → Async A).
Arguments Resolved {A} a.
Arguments Fetch {A} url init k.

Fixpoint await {A B} (p : Async A) (k : A → Async B) : Async B :=
  match p with
  | Resolved a => k a
  | Fetch url init k' => Fetch url init (λ r, await (k' r) k)
  end.

Definition fetch (url : jsstring) (init : RequestInit) : Async Response :=
  Fetch url init Resolved.

Definition linkServer : jsstring := js "http://127.0.0.1:8000".

Definition submit (markers : array Marker) : Async Response :=
  await
    (fetch (linkServer ++ js "/find-optimal-location/")
           {| method := js "POST";
              headers := [(js "Content-Type", js "application/json")];
              body := stringify markers |})
    (λ response, Resolved response).

(** Running a computation against a server: the requests issued, in
    order, and the result. *)
Fixpoint run {A} (server : jsstring → RequestInit → Response) (p : Async A)
  : list (jsstring * RequestInit) * A :=
  match p with
  | Resolved a => ([], a)
  | Fetch url init k =>
    let '(log, a) := run server (k (server url init)) in
    ((url, init) :: log, a)
  end.
End Fetch.

Arguments Resolved {Response A} a.
Arguments Fetch {Response A} url init k.

End Connection.

(** ** The screen (Home.js, MapComponent.js, App.js) *)

Module App.
Import JS MakersContext.

(** [Platform.OS === "web"] picks the map view. *)
Inductive platform : Type := Web | Native.

Definition handleSave (p : platform) :=
  match p with
  | Web => MapComponentWeb.handleSave
  | Native => MapComponentNative.handleSave
  end.

Definition handleDelete (p : platform) :=
  match p with
  | Web => MapComponentWeb.handleDelete
  | Native => MapComponentNative.handleDelete
  end.

Definition onClose (p : platform) :=
  match p with
  | Web => MapComponentWeb.onClose
  | Native => MapComponentNative.onClose
  end.

(** The screen: the map view's state and, while the form is shown, the
    form's own state. *)
Record Screen : Type := {
  view : MapComponent.State;
  form : option Formulario.State
}.

(** What the user and the file picker can do. The form is modal: the map
    takes presses only while the form is closed, the form's controls only
    while it is shown. *)
Inductive event : Type :=
  | PressMap (coords : LatLng)
  | PressMarker (i : nat)
  | PressMercado
  | PressProdutor
  | ChangeQuantidade (text : jsstring)
  | ChangeBusca (text : jsstring)
  | PressSugestao (fruta : jsstring)
  | PressRemover (fruta : jsstring)
  | PressSalvar
  | PressCancelar
  | PressExcluir
  | ImportCsv (rows : list CsvImporter.Row).

Definition start : Screen :=
  {| view :=
       {| MapComponent.markers := markers0;
          MapComponent.showForm := false;
          MapComponent.markerType := js "mercado";
          MapComponent.newMarkerCoords := None;
          MapComponent.selectedMarkerIndex := None;
          MapComponent.frutas := None |};
     form := None |}.

Definition opened (v : MapComponent.State) : Screen :=
  {| view := v; form := Some (Formulario.mount (MapComponent.formProps v)) |}.

Definition closed (v : MapComponent.State) : Screen :=
  {| view := v; form := None |}.

Definition editing (s : Screen) (f : Formulario.State) : Screen :=
  {| view := view s; form := Some f |}.

Definition step (p : platform) (s : Screen) (e : event) : Screen :=
  match form s, e with
  | None, PressMap coords => opened (MapComponent.pressMap coords (view s))
  | None, PressMarker i =>
    match MapComponent.markers (view s) !! i with
    | Some (Item m) => opened (MapComponent.pressMarker i m (view s))
    | _ => s
    end
  | Some f, PressMercado => editing s (Formulario.setTipo (js "mercado") f)
  | Some f, PressProdutor => editing s (Formulario.setTipo (js "produtor") f)
  | Some f, ChangeQuantidade text => editing s (Formulario.setQuantidade text f)
  | Some f, ChangeBusca text => editing s (Formulario.setBusca text f)
  | Some f, PressSugestao fruta =>
    if arrayIncludes (Formulario.sugestoes f) fruta
    then editing s (Formulario.adicionarFruta fruta f) else s
  | Some f, PressRemover fruta =>
    if arrayIncludes (Formulario.selecionadas f) fruta
    then editing s (Formulario.removerFruta fruta f) else s
  | Some f, PressSalvar =>
    let data := Formulario.salvar (MapComponent.formProps (view s)) f in
    closed (onClose p (handleSave p data (view s)))
  | Some f, PressExcluir => closed (onClose p (handleDelete p (view s)))
  | Some f, PressCancelar => closed (onClose p (view s))
  | _, ImportCsv rows =>
    match CsvImporter.complete rows with
    | Some ms => {| view := MapComponent.imported ms (view s); form := form s |}
    | None => s
    end
  | _, _ => s
  end.

Definition run (p : platform) (s : Screen) (es : list event) : Screen :=
  foldl (step p) s es.

End App.

(** * Properties *)

(** ** Vocabulary of the statements *)

Module Props.
Import JS MakersContext.

(** The two fixed type tags. *)
Definition isTag (t : jsstring) : Prop := t = js "mercado" ∨ t = js "produtor".

(** A marker whose type is one of the two tags. *)
Definition tagged (m : Marker) : Prop := isTag (type m).

(** A map-view state that holds the dense marker list [ms] and refers to
    index [sel]. *)
Definition holding (ms : list Marker) (sel : option nat)
    (st : MapComponent.State) : Prop :=
  MapComponent.markers st = ofList ms ∧
  MapComponent.selectedMarkerIndex st = sel.

(** [st] with the form closed and nothing else touched. *)
Definition formClosed (st : MapComponent.State) : MapComponent.State :=
  {| MapComponent.markers := MapComponent.markers st;
     MapComponent.showForm := false;
     MapComponent.markerType := MapComponent.markerType st;
     MapComponent.newMarkerCoords := MapComponent.newMarkerCoords st;
     MapComponent.selectedMarkerIndex := MapComponent.selectedMarkerIndex st;
     MapComponent.frutas := MapComponent.frutas st |}.

(** The integer a sign and a magnitude denote. *)
Definition signed (negative : bool) (magnitude : Z) : Z :=
  if negative then (- magnitude)%Z else magnitude.

(** A [tipo] field that is missing, empty once trimmed, or one of the two
    tags once trimmed and lower-cased. *)
Definition knownTipo (t : option jsstring) : Prop :=
  match t with
  | None => True
  | Some s =>
    latin1 s ∧
    (trim s = []
     ∨ toLowerCase (trim s) = js "mercado"
     ∨ toLowerCase (trim s) = js "produtor")
  end.

(** Every CSV import among the events carries only rows of known [tipo]. *)
Definition tagsKnown (e : App.event) : Prop :=
  match e with
  | App.ImportCsv rows => Forall (λ row, knownTipo (CsvImporter.tipo row)) rows
  | _ => True
  end.

(** What the screen keeps true while only known tags come in: the stored
    markers, the view's [markerType] cell and the open form's [tipo] cell all
    hold one of the two tags. *)
Definition tagsKept (s : App.Screen) : Prop :=
  (∀ m, Item m ∈ MapComponent.markers (App.view s) → tagged m)
  ∧ isTag (MapComponent.markerType (App.view s))
  ∧ (∀ f, App.form s = Some f → isTag (Formulario.tipo f)).

(** Sample data for the worked instances. *)
Definition here : LatLng :=
  {| lat := Dyadic (-24) 0; lng := Dyadic (-51) 0 |}.

Definition feira : Marker :=
  {| type := js "mercado"; coords := Some here;
     frutas := [js "Uva"]; quantidade := VNumber (Int 5) |}.

Definition sitio : Marker :=
  {| type := js "produtor"; coords := Some here;
     frutas := [js "Kiwi"; js "Pera"]; quantidade := VNumber (Int 30) |}.

Definition viewOf (ms : list Marker) (sel : option nat) : MapComponent.State :=
  {| MapComponent.markers := ofList ms;
     MapComponent.showForm := true;
     MapComponent.markerType := js "mercado";
     MapComponent.newMarkerCoords := Some here;
     MapComponent.selectedMarkerIndex := sel;
     MapComponent.frutas := None |}.

Definition typed (quantidade : string) : SaveData.Data :=
  {| SaveData.tipo := js "produtor"; SaveData.coords := Some here;
     SaveData.frutas := [js "Manga"]; SaveData.quantidade := js quantidade |}.

Definition line (tipo quantidade : option string) : CsvImporter.Row :=
  {| CsvImporter.tipo := js <$> tipo;
     CsvImporter.lat := Some (js "-24.5");
     CsvImporter.long := Some (js "-51.2");
     CsvImporter.produtos := Some (js "Uva, Pera");
     CsvImporter.quantidade := js <$> quantidade |}.

End Props.

(** ** Vocabulary of the statements about runs of the screen *)

Module Traces.
Import JS MakersContext.

(** The events whose handlers call [setMarkers]. *)
Definition mutates (e : App.event) : bool :=
  match e with
  | App.PressSalvar | App.PressExcluir | App.ImportCsv _ => true
  | _ => false
  end.

Definition isImport (e : App.event) : bool :=
  match e with
  | App.ImportCsv _ => true
  | _ => false
  end.

(** A run in which every CSV import completes while the form is closed. *)
Fixpoint importsWhileClosed (p : App.platform) (s : App.Screen)
    (es : list App.event) : Prop :=
  match es with
  | [] => True
  | e :: es' =>
    (isImport e = true → App.form s = None)
    ∧ importsWhileClosed p (App.step p s e) es'
  end.

(** The store is a dense list and, while the form is shown, the selected
    index (if any) is an index of that list. *)
Definition selectionInRange (s : App.Screen) : Prop :=
  ∃ ms, MapComponent.markers (App.view s) = ofList ms
        ∧ ∀ f i, App.form s = Some f →
                 MapComponent.selectedMarkerIndex (App.view s) = Some i →
                 (i < length ms)%nat.

(** Distinct fruits of the vocabulary. *)
Definition fromVocabulary (fs : list jsstring) : Prop :=
  NoDup fs ∧ ∀ f, f ∈ fs → f ∈ Formulario.frutasDisponiveis.

(** A marker as the form builds it: distinct vocabulary fruits and a Number
    for quantity. *)
Definition formBuilt (m : Marker) : Prop :=
  fromVocabulary (frutas m) ∧ ∃ n, quantidade m = VNumber n.

(** What every run keeps: stored markers have coordinates, and so does the
    view while the form is shown. *)
Definition coordsKept (s : App.Screen) : Prop :=
  (∀ m, Item m ∈ MapComponent.markers (App.view s) → is_Some (coords m))
  ∧ (∀ f, App.form s = Some f →
          is_Some (MapComponent.newMarkerCoords (App.view s))).

(** What a run without imports keeps: stored markers are form-built, and the
    fruit lists held by the view and by the open form are distinct
    vocabulary fruits. *)
Definition formBuiltKept (s : App.Screen) : Prop :=
  (∀ m, Item m ∈ MapComponent.markers (App.view s) → formBuilt m)
  ∧ (∀ fs, MapComponent.frutas (App.view s) = Some fs → fromVocabulary fs)
  ∧ (∀ f, App.form s = Some f → fromVocabulary (Formulario.selecionadas f)).





(** [m] with its quantity replaced by [NaN]. *)
Definition unquantified (m : Marker) : Marker :=
  {| type := type m; coords := coords m; frutas := frutas m;
     quantidade := VNumber NaN |}.

(** A string that neither begins nor ends with white space. *)
Definition trimmed (s : jsstring) : Prop :=
  ∀ c, head s = Some c ∨ last s = Some c → isWhiteSpace c = false.

(** How often the unit [sep] occurs in [s]. *)
Definition occurrences (sep : N) (s : jsstring) : nat :=
  length (List.filter (λ c, c =? sep) s).

(** A screen with the form closed over the dense store [ms]. *)
Definition closedOver (ms : list Marker) (s : App.Screen) : Prop :=
  App.form s = None ∧ MapComponent.markers (App.view s) = ofList ms.

(** Sample screens for the worked instances. *)
Definition atRest (ms : list Marker) (stale : option nat) : App.Screen :=
  {| App.view :=
       {| MapComponent.markers := ofList ms;
          MapComponent.showForm := false;
          MapComponent.markerType := js "produtor";
          MapComponent.newMarkerCoords := None;
          MapComponent.selectedMarkerIndex := stale;
          MapComponent.frutas := None |};
     App.form := None |}.

End Traces.

(** ** Worked values of the built-ins *)

Section Values.
Import JS.

Example js_maca : js "Maçã" = [77; 97; 231; 227].
Proof. reflexivity. Qed.
Example parseInt_42 : parseInt (js " 42kg") 10 = Int 42.
Proof. reflexivity. Qed.
Example parseInt_neg : parseInt (js "-7.5") 10 = Int (-7).
Proof. reflexivity. Qed.
Example parseInt_empty : parseInt (js "") 10 = NaN.
Proof. reflexivity. Qed.
Example parseInt_big : parseInt (js "9007199254740993") 10 = Int 9007199254740992.
Proof. reflexivity. Qed.
Example parseInt_big2 : parseInt (js "99999999999999999999") 10 = Int 100000000000000000000.
Proof. reflexivity. Qed.
Example split_ex : split 44 (js "a,,b") = [js "a"; []; js "b"].
Proof. reflexivity. Qed.
Example trim_ex : trim (js "  a b  ") = js "a b".
Proof. reflexivity. Qed.
Example lower_ex : toLowerCase (js "MAÇÃ") = js "maçã".
Proof. reflexivity. Qed.
Example assign_ex : assign [Item 1] 3 7 = [Item 1; Hole; Hole; Item 7].
Proof. reflexivity. Qed.

Example assign_inside : assign [Item 1; Item 2] 1 7 = [Item 1; Item 7].
Proof. reflexivity. Qed.
Example filter_skips_holes :
  JS.filter (λ _ j, negb (j =? 0)%nat) [Item 1; Hole; Undefined; Item 4]
  = [Undefined; Item 4].
Proof. reflexivity. Qed.
Example parseInt_hex : parseInt (js "0x1F") 16 = Int 31.
Proof. reflexivity. Qed.
Example parseInt_decimal_0x : parseInt (js "0x1F") 10 = Int 0.
Proof. reflexivity. Qed.

End Values.

(** ** Facts about the built-ins *)

Section Strings.
Import JS.

Lemma jsstring_eqb_eq (s t : jsstring) : jsstring_eqb s t = true ↔ s = t.
Proof.
  revert t. induction s as [|c s IH]; intros [|d t]; simpl; try easy.
  rewrite andb_true_iff, N.eqb_eq, IH. split.
  - intros [-> ->]; reflexivity.
  - intros [= -> ->]; auto.
Qed.

Lemma arrayIncludes_elem (a : list jsstring) (x : jsstring) :
  arrayIncludes a x = true ↔ x ∈ a.
Proof.
  induction a as [|y a IH]; simpl.
  - split; [discriminate | by intros ?%elem_of_nil].
  - rewrite orb_true_iff, jsstring_eqb_eq, IH, elem_of_cons.
    split; (intros [E|E]; [left | right]); auto.
Qed.

Lemma startsWith_prefix (s t : jsstring) :
  startsWith s t = true ↔ ∃ post, s = t ++ post.
Proof.
  revert s. induction t as [|d t IH]; intros s; simpl.
  - split; [intros _; by exists s | done].
  - destruct s as [|c s].
    + split; [discriminate | by intros [? ?]].
    + rewrite andb_true_iff, N.eqb_eq, IH. split.
      * intros [-> [post ->]]. by exists post.
      * intros [post [= -> ->]]. eauto.
Qed.

Lemma includes_infix (s t : jsstring) :
  includes s t = true ↔ ∃ pre post, s = pre ++ t ++ post.
Proof.
  induction s as [|c s IH]; simpl.
  - rewrite orb_false_r, startsWith_prefix. split.
    + intros [post ->]. by exists [], post.
    + intros [pre [post E]]. symmetry in E.
      apply app_eq_nil in E as [-> E]. by exists post.
  - rewrite orb_true_iff, startsWith_prefix, IH. split.
    + intros [[post ->] | [pre [post ->]]].
      * by exists [], post.
      * by exists (c :: pre), post.
    + intros [[|c' pre] [post E]].
      * left. by exists post.
      * right. injection E as -> ->. by exists pre, post.
Qed.

Lemma toLowerCase_nil (s : jsstring) : toLowerCase s = [] ↔ s = [].
Proof. unfold toLowerCase. destruct s; simpl; split; congruence. Qed.

End Strings.

Section Arrays.
Import JS.
Context {A : Type}.
Implicit Types (a : array A) (l : list A).

Lemma spread_ofList l : spread (ofList l) = ofList l.
Proof. unfold spread, ofList. induction l; simpl; congruence. Qed.

Lemma length_ofList l : length (ofList l) = length l.
Proof. unfold ofList. apply length_map. Qed.

Lemma assign_ofList l (i : nat) (v : A) :
  (i < length l)%nat → assign (ofList l) i v = ofList (<[i := v]> l).
Proof.
  intros Hi. unfold assign. rewrite length_ofList.
  destruct (decide (i < length l)%nat) as [_|]; [|lia].
  unfold ofList. by rewrite list_fmap_insert.
Qed.

(** Once the running index is past [i], the filter keeps everything. *)
Lemma filterFrom_ofList_past (k i : nat) l :
  (i < k)%nat →
  filterFrom (λ (_ : slot A) j, negb (j =? i)%nat) k (ofList l) = ofList l.
Proof.
  revert k. induction l as [|x l IH]; intros k Hk; simpl; [done|].
  destruct (Nat.eqb_spec k i); [lia|]. simpl. by rewrite IH by lia.
Qed.

Lemma filterFrom_ofList_skip (k i : nat) l :
  (k ≤ i)%nat →
  filterFrom (λ (_ : slot A) j, negb (j =? i)%nat) k (ofList l)
  = ofList (take (i - k) l ++ drop (S (i - k)) l).
Proof.
  revert k. induction l as [|x l IH]; intros k Hk; simpl.
  - by rewrite take_nil.
  - destruct (Nat.eqb_spec k i) as [->|Hne]; simpl.
    + rewrite Nat.sub_diag. simpl. rewrite drop_0.
      apply filterFrom_ofList_past. lia.
    + rewrite IH by lia.
      replace (i - k)%nat with (S (i - S k)) by lia. reflexivity.
Qed.

End Arrays.

(** ** Saving and deleting in the map views *)

Section MapViews.
Import JS MakersContext.

(** On the web view, saving while an in-range index is referred to puts the
    saved marker at that index and keeps the rest of the list. *)
Lemma web_handleSave_replaces (data : SaveData.Data) (st : MapComponent.State)
    (ms : list Marker) (i : nat) :
  Props.holding ms (Some i) st → (i < length ms)%nat →
  MapComponent.markers (MapComponentWeb.handleSave data st)
    = ofList (<[i := MapComponent.saved data]> ms)
  ∧ length (<[i := MapComponent.saved data]> ms) = length ms
  ∧ <[i := MapComponent.saved data]> ms !! i = Some (MapComponent.saved data)
  ∧ ∀ j, j ≠ i → <[i := MapComponent.saved data]> ms !! j = ms !! j.
Proof.
  intros [Hms Hsel] Hi. unfold MapComponentWeb.handleSave. simpl.
  rewrite Hsel, Hms, spread_ofList, assign_ofList by done.
  repeat split.
  - apply length_insert.
  - by apply list_lookup_insert_eq.
  - intros j Hj. by apply list_lookup_insert_ne.
Qed.

(** On the native view the same save leaves the store as it was. *)
Lemma native_handleSave_keeps (data : SaveData.Data) (st : MapComponent.State)
    (i : nat) :
  MapComponent.selectedMarkerIndex st = Some i →
  MapComponent.markers (MapComponentNative.handleSave data st)
    = MapComponent.markers st.
Proof. intros Hsel. unfold MapComponentNative.handleSave. simpl. by rewrite Hsel. Qed.

(** With no index referred to, both views append the saved marker. *)
Lemma handleSave_appends (p : App.platform) (data : SaveData.Data)
    (st : MapComponent.State) (ms : list Marker) :
  Props.holding ms None st →
  MapComponent.markers (App.handleSave p data st)
    = ofList (ms ++ [MapComponent.saved data]).
Proof.
  intros [Hms Hsel]. destruct p; simpl; rewrite Hsel, Hms, spread_ofList;
    unfold ofList; by rewrite map_app.
Qed.

(** C1: saving while index [i] is referred to must replace element [i] of the
    shared list in both views. At the list [[feira]] with index 0 referred to
    and a form payload for a producer, the web view stores the saved marker at
    index 0, while the native view leaves [feira] there: the update is lost. *)
Theorem C1_native_handleSave_loses_update :
  let st := Props.viewOf [Props.feira] (Some 0%nat) in
  let data := Props.typed "12" in
  MapComponent.markers (MapComponentWeb.handleSave data st)
    = ofList [MapComponent.saved data]
  ∧ MapComponent.markers (MapComponentNative.handleSave data st)
    = ofList [Props.feira]
  ∧ MapComponent.saved data ≠ Props.feira
  ∧ quantidade (MapComponent.saved data) = VNumber (Int 12).
Proof. repeat split. discriminate. Qed.

(** Past the end of the list there is nothing to remove. *)
Lemma handleDelete_past_end (p : App.platform) (st : MapComponent.State)
    (ms : list Marker) (i : nat) :
  Props.holding ms (Some i) st → (length ms ≤ i)%nat →
  MapComponent.markers (App.handleDelete p st) = ofList ms.
Proof.
  intros [Hms Hsel] Hi.
  destruct p; simpl;
    [unfold MapComponentWeb.handleDelete
    |unfold MapComponentNative.handleDelete];
    rewrite Hsel; simpl; rewrite Hms; unfold MapComponent.without, JS.filter;
    rewrite filterFrom_ofList_skip, Nat.sub_0_r by lia;
    by rewrite take_ge, drop_ge, app_nil_r by lia.
Qed.

(** C6: for every marker list [ms] and selected index [i] of it, delete
    leaves exactly [ms] without its element [i] in the store, on both views:
    one element fewer, the elements before [i] where they were and the
    elements after [i] moved down by one. *)
Theorem C6_handleDelete_removes_selected (p : App.platform)
    (st : MapComponent.State) (ms : list Marker) (i : nat) :
  Props.holding ms (Some i) st → (i < length ms)%nat →
  let ms' := take i ms ++ drop (S i) ms in
  MapComponent.markers (App.handleDelete p st) = ofList ms'
  ∧ S (length ms') = length ms
  ∧ (∀ j, (j < i)%nat → ms' !! j = ms !! j)
  ∧ (∀ j, (i ≤ j)%nat → ms' !! j = ms !! S j).
Proof.
  intros [Hms Hsel] Hi ms'. repeat split.
  - destruct p; simpl;
      [unfold MapComponentWeb.handleDelete
      |unfold MapComponentNative.handleDelete];
      rewrite Hsel; simpl; rewrite Hms; unfold MapComponent.without, JS.filter;
      rewrite filterFrom_ofList_skip by lia; by rewrite Nat.sub_0_r.
  - unfold ms'. rewrite length_app, length_take, length_drop. lia.
  - intros j Hj. unfold ms'.
    rewrite lookup_app_l by (rewrite length_take; lia).
    by rewrite lookup_take_lt.
  - intros j Hj. unfold ms'.
    rewrite lookup_app_r by (rewrite length_take; lia).
    rewrite length_take, lookup_drop. f_equal. lia.
Qed.

Lemma C6_handleDelete_removes_selected_witness :
  Props.holding [Props.feira; Props.sitio; Props.feira] (Some 1%nat)
    (Props.viewOf [Props.feira; Props.sitio; Props.feira] (Some 1%nat))
  ∧ MapComponent.markers
      (App.handleDelete App.Native
         (Props.viewOf [Props.feira; Props.sitio; Props.feira] (Some 1%nat)))
    = ofList [Props.feira; Props.feira].
Proof.
  split; [split; reflexivity|].
  apply (C6_handleDelete_removes_selected App.Native
           (Props.viewOf [Props.feira; Props.sitio; Props.feira] (Some 1%nat))
           [Props.feira; Props.sitio; Props.feira] 1%nat).
  - split; reflexivity.
  - simpl. lia.
Defined.

(** C9: on both views, delete with no marker index selected leaves the
    shared marker list as it is; it only closes the form. *)
Theorem C9_handleDelete_unselected (p : App.platform) (st : MapComponent.State) :
  MapComponent.selectedMarkerIndex st = None →
  App.handleDelete p st = Props.formClosed st
  ∧ MapComponent.markers (App.handleDelete p st) = MapComponent.markers st.
Proof.
  intros Hsel. unfold Props.formClosed.
  destruct p; simpl;
    [unfold MapComponentWeb.handleDelete|unfold MapComponentNative.handleDelete];
    rewrite Hsel; split; reflexivity.
Qed.

Lemma C9_handleDelete_unselected_witness :
  MapComponent.selectedMarkerIndex (Props.viewOf [Props.feira] None) = None
  ∧ App.handleDelete App.Web (Props.viewOf [Props.feira] None)
    = Props.formClosed (Props.viewOf [Props.feira] None).
Proof.
  split; [reflexivity|].
  apply (C9_handleDelete_unselected App.Web (Props.viewOf [Props.feira] None)).
  reflexivity.
Defined.

End MapViews.

(** ** The marker form *)

Section Form.
Import JS MakersContext.

Lemma filter_other_id (fruta : jsstring) (s : list jsstring) :
  fruta ∉ s → List.filter (λ f, negb (jsstring_eqb f fruta)) s = s.
Proof.
  induction s as [|g s IH]; simpl; [done|].
  intros Hnot. apply not_elem_of_cons in Hnot as [Hne Hnot].
  destruct (jsstring_eqb g fruta) eqn:E.
  - apply jsstring_eqb_eq in E. congruence.
  - simpl. by rewrite IH.
Qed.

Lemma filter_same_nil (fruta : jsstring) :
  List.filter (λ f, negb (jsstring_eqb f fruta)) [fruta] = [].
Proof. simpl. by rewrite (proj2 (jsstring_eqb_eq fruta fruta) eq_refl). Qed.

(** C10: for every selection [s] and fruit [f] not in it, [removerFruta f]
    after [adicionarFruta f] gives the selection [s] back. *)
Theorem C10_add_then_remove (st : Formulario.State) (fruta : jsstring) :
  fruta ∉ Formulario.selecionadas st →
  Formulario.selecionadas
    (Formulario.removerFruta fruta (Formulario.adicionarFruta fruta st))
  = Formulario.selecionadas st.
Proof.
  intros Hnot. simpl.
  rewrite List.filter_app, filter_other_id, filter_same_nil by done.
  apply app_nil_r.
Qed.

Lemma C10_add_then_remove_witness :
  (js "Uva" ∉ [js "Kiwi"; js "Pera"])
  ∧ Formulario.selecionadas
      (Formulario.removerFruta (js "Uva")
         (Formulario.adicionarFruta (js "Uva")
            (Formulario.mount
               (MapComponent.formProps
                  (MapComponent.pressMarker 1 Props.sitio
                     (Props.viewOf [Props.feira; Props.sitio] None))))))
    = [js "Kiwi"; js "Pera"].
Proof.
  assert (Hnot : js "Uva" ∉ [js "Kiwi"; js "Pera"]).
  { intros H. apply arrayIncludes_elem in H. discriminate H. }
  split; [exact Hnot|].
  apply (C10_add_then_remove
           (Formulario.mount
              (MapComponent.formProps
                 (MapComponent.pressMarker 1 Props.sitio
                    (Props.viewOf [Props.feira; Props.sitio] None))))
           (js "Uva")).
  exact Hnot.
Defined.

(** Membership in the filtered vocabulary, read off the filter. *)
Lemma frutasFiltradas_elem (st : Formulario.State) (f : jsstring) :
  f ∈ Formulario.frutasFiltradas st ↔
  f ∈ Formulario.frutasDisponiveis
  ∧ (∃ pre post,
        toLowerCase f = pre ++ toLowerCase (Formulario.busca st) ++ post)
  ∧ f ∉ Formulario.selecionadas st.
Proof.
  unfold Formulario.frutasFiltradas.
  rewrite list_elem_of_In, List.filter_In, <- list_elem_of_In.
  rewrite andb_true_iff, includes_infix, negb_true_iff.
  assert (arrayIncludes (Formulario.selecionadas st) f = false
          ↔ f ∉ Formulario.selecionadas st) as ->; [|tauto].
  by rewrite <- not_true_iff_false, arrayIncludes_elem.
Qed.

Lemma frutasFiltradas_sublist (st : Formulario.State) :
  sublist (Formulario.frutasFiltradas st) Formulario.frutasDisponiveis.
Proof.
  unfold Formulario.frutasFiltradas.
  generalize Formulario.frutasDisponiveis as l.
  induction l as [|x l IH]; simpl; [constructor|].
  destruct (_ && _); by constructor.
Qed.

(** C7, amended: for every non-empty search string (of Latin-1 characters),
    the suggestion list holds exactly the fruits of the vocabulary whose
    lower-cased name contains the lower-cased search string somewhere (not
    only at its start) and that are not selected yet, in vocabulary order. *)
Theorem C7_suggestions_are_substring_matches (st : Formulario.State)
    (f : jsstring) :
  Formulario.busca st ≠ [] → latin1 (Formulario.busca st) →
  (f ∈ Formulario.sugestoes st ↔
     f ∈ Formulario.frutasDisponiveis
     ∧ (∃ pre post,
          toLowerCase f = pre ++ toLowerCase (Formulario.busca st) ++ post)
     ∧ f ∉ Formulario.selecionadas st)
  ∧ sublist (Formulario.sugestoes st) Formulario.frutasDisponiveis.
Proof.
  intros Hne _. unfold Formulario.sugestoes.
  destruct (Formulario.busca st) as [|c b] eqn:Hb; [done|].
  rewrite <- Hb. split.
  - apply frutasFiltradas_elem.
  - apply frutasFiltradas_sublist.
Qed.

Lemma C7_suggestions_are_substring_matches_witness :
  js "AN" ≠ [] ∧ latin1 (js "AN")
  ∧ js "Manga" ∈
      Formulario.sugestoes
        (Formulario.setBusca (js "AN")
           (Formulario.adicionarFruta (js "Banana")
              (Formulario.mount (MapComponent.formProps
                                   (Props.viewOf [] None))))).
Proof.
  split; [discriminate|]. split; [repeat constructor|].
  apply (C7_suggestions_are_substring_matches
           (Formulario.setBusca (js "AN")
              (Formulario.adicionarFruta (js "Banana")
                 (Formulario.mount (MapComponent.formProps
                                      (Props.viewOf [] None)))))
           (js "Manga")).
  - discriminate.
  - repeat constructor.
  - split; [|split].
    + apply arrayIncludes_elem. reflexivity.
    + exists (js "m"), (js "ga"). reflexivity.
    + intros H. apply arrayIncludes_elem in H. discriminate H.
Defined.

(** C7 as stated fails: with nothing selected, the search string "an" is
    offered "Banana", "Laranja", "Manga" and "Melancia", and none of them
    begins with "an", in any letter case. *)
Lemma C7_counterexample_an :
  Formulario.sugestoes
    (Formulario.setBusca (js "an")
       (Formulario.mount (MapComponent.formProps (Props.viewOf [] None))))
  = [js "Banana"; js "Laranja"; js "Manga"; js "Melancia"]
  ∧ Forall (λ f, startsWith (toLowerCase f) (toLowerCase (js "an")) = false)
      [js "Banana"; js "Laranja"; js "Manga"; js "Melancia"].
Proof. split; [reflexivity | repeat constructor]. Qed.

End Form.

(** ** The submission client *)

Section Submission.
Import JS MakersContext Connection.

(** C8: for every marker list, [submit] issues exactly one request, a POST to
    the server's [/find-optimal-location/] whose body is [JSON.stringify] of
    the list, and resolves to the server's response as it came. *)
Theorem C8_submit_posts_once {Response : Type}
    (stringify : array Marker → jsstring)
    (server : jsstring → RequestInit → Response) (markers : array Marker) :
  let url := js "http://127.0.0.1:8000/find-optimal-location/" in
  let init := {| method := js "POST";
                 headers := [(js "Content-Type", js "application/json")];
                 body := stringify markers |} in
  @submit Response stringify markers = Fetch url init Resolved
  ∧ run server (submit stringify markers) = ([(url, init)], server url init).
Proof. split; reflexivity. Qed.

End Submission.

(** ** The CSV row mapper *)

Section Csv.
Import JS MakersContext CsvImporter.

(** The mapper throws exactly on the rows that lack [quantidade]. *)
Lemma rowToMarker_throws (row : Row) :
  rowToMarker row = inl TypeError ↔ CsvImporter.quantidade row = None.
Proof.
  unfold rowToMarker, rowQuantidade.
  destruct (CsvImporter.quantidade row) as [q|]; [|done].
  destruct (toLowerCase (trim q)); split; discriminate.
Qed.

Lemma rowToMarker_returns (row : Row) (q : jsstring) :
  CsvImporter.quantidade row = Some q →
  rowToMarker row =
    inr {| type := rowType row;
           coords := Some (rowCoords row);
           frutas := rowFrutas row;
           MakersContext.quantidade :=
             match toLowerCase (trim q) with
             | [] => VNumber (Int 10)
             | s => VString s
             end |}.
Proof.
  intros Hq. unfold rowToMarker, rowQuantidade. rewrite Hq.
  by destruct (toLowerCase (trim q)).
Qed.

(** One throwing row ends the import of all rows. *)
Lemma mapRows_throws (rows : list Row) :
  mapRows rows = inl TypeError ↔
  ∃ row, row ∈ rows ∧ CsvImporter.quantidade row = None.
Proof.
  induction rows as [|row rows IH]; simpl.
  - split; [discriminate | by intros [? [?%elem_of_nil _]]].
  - destruct (rowToMarker row) as [[]|m] eqn:E.
    + split; [intros _ | done]. exists row. split; [left|].
      by apply rowToMarker_throws.
    + assert (CsvImporter.quantidade row ≠ None) as Hq.
      { rewrite <- rowToMarker_throws. congruence. }
      destruct (mapRows rows) as [[]|ms].
      * split; [intros _ | done]. destruct (proj1 IH eq_refl) as [r [Hin Hr]].
        exists r. split; [by right | done].
      * split; [discriminate|]. intros [r [Hin Hr]].
        apply elem_of_cons in Hin as [->|Hin]; [done|].
        assert (@inr exn _ ms = inl TypeError) as [=]. apply IH. eauto.
Qed.

(** C2: the mapper must give a marker for every row, so that one row with a
    missing field cannot stop the others. For a line that lacks [quantidade]
    the mapper throws, and a file of three lines with that line in the middle
    imports nothing, though the two other lines alone import. *)
Theorem C2_missing_quantidade_stops_import :
  rowToMarker (Props.line (Some "produtor") None) = inl TypeError
  ∧ complete [Props.line (Some "mercado") (Some "5");
              Props.line (Some "produtor") None;
              Props.line None (Some "")] = None
  ∧ length <$> complete [Props.line (Some "mercado") (Some "5");
                         Props.line None (Some "")] = Some 2%nat.
Proof. repeat split. Qed.

(** C3, amended: for every row that has a [quantidade] field (and a [tipo]
    of Latin-1 characters, if any), the mapper returns a marker whose type is
    "mercado" when [tipo] is missing or empty once trimmed, and is otherwise
    the trimmed, lower-cased [tipo], whatever tag that is. *)
Theorem C3_type_of_mapped_row (row : Row) (q : jsstring) :
  CsvImporter.quantidade row = Some q →
  (∀ t, tipo row = Some t → latin1 t) →
  ∃ m, rowToMarker row = inr m
       ∧ type m = match tipo row with
                  | None => js "mercado"
                  | Some t => match trim t with
                              | [] => js "mercado"
                              | s => toLowerCase s
                              end
                  end.
Proof.
  intros Hq _. rewrite (rowToMarker_returns row q Hq). eexists. split; [done|].
  simpl. unfold rowType. destruct (tipo row) as [t|]; [|done].
  destruct (trim t); reflexivity.
Qed.

Lemma C3_type_of_mapped_row_witness :
  CsvImporter.quantidade (Props.line (Some "  ") (Some "5")) = Some (js "5")
  ∧ (∀ t, tipo (Props.line (Some "  ") (Some "5")) = Some t → latin1 t)
  ∧ ∃ m, rowToMarker (Props.line (Some "  ") (Some "5")) = inr m
         ∧ type m = js "mercado".
Proof.
  assert (Hl : ∀ t, tipo (Props.line (Some "  ") (Some "5")) = Some t
               → latin1 t).
  { intros t [= <-]. repeat constructor. }
  split; [reflexivity|]. split; [exact Hl|].
  apply (C3_type_of_mapped_row (Props.line (Some "  ") (Some "5")) (js "5")).
  - reflexivity.
  - exact Hl.
Defined.

(** C3 as stated fails: the unknown tag "Industria" is kept, lower-cased. *)
Lemma C3_counterexample_unknown_tag :
  ∃ m, rowToMarker (Props.line (Some "Industria") (Some "5")) = inr m
       ∧ type m = js "industria" ∧ type m ≠ js "mercado".
Proof. eexists. repeat split. discriminate. Qed.

End Csv.

(** ** The quantity of a saved marker *)

Section Quantity.
Import JS MakersContext.
Local Open Scope Z_scope.

Lemma radixDigits_range (R : Z) (s : jsstring) :
  Forall (λ d, 0 ≤ d < R) (radixDigits R s).
Proof.
  induction s as [|c s IH]; simpl; [constructor|].
  destruct (digitValue c) as [d|] eqn:E; [|constructor].
  destruct (Z.ltb_spec d R); constructor; [|done].
  split; [|done]. unfold digitValue in E.
  repeat destruct (_ && _) in E; inversion E; lia.
Qed.

Lemma foldl_digits_bound (ds : list Z) (acc k : Z) :
  0 ≤ k → 0 ≤ acc < 10 ^ k → Forall (λ d, 0 ≤ d < 10) ds →
  0 ≤ foldl (λ a d, a * 10 + d) acc ds < 10 ^ (k + Z.of_nat (length ds)).
Proof.
  revert acc k. induction ds as [|d ds IH]; intros acc k Hk Hacc Hds; simpl.
  - by rewrite Z.add_0_r.
  - apply Forall_cons in Hds as [Hd Hds].
    replace (k + Z.of_nat (S (length ds)))
      with ((k + 1) + Z.of_nat (length ds)) by lia.
    apply IH; [lia| |done].
    rewrite Z.pow_add_r, Z.pow_1_r by lia. lia.
Qed.

Lemma mathInt_bound (ds : list Z) :
  Forall (λ d, 0 ≤ d < 10) ds → (length ds ≤ 15)%nat →
  0 ≤ mathInt 10 ds < 10 ^ 15.
Proof.
  intros Hds Hlen.
  pose proof (foldl_digits_bound ds 0 0 (Z.le_refl 0)) as H.
  simpl in H. specialize (H ltac:(lia) Hds). unfold mathInt.
  split; [lia|]. eapply Z.lt_le_trans; [apply H|].
  apply Z.pow_le_mono_r; lia.
Qed.

Lemma roundToDouble_exact (n : Z) : 0 ≤ n < 2 ^ 53 → roundToDouble n = Some n.
Proof.
  intros Hn. unfold roundToDouble.
  destruct (Z.ltb_spec (Z.log2 n) 53) as [_|Hk]; [done|].
  destruct (Z.eq_dec n 0) as [->|]; [simpl in Hk; lia|].
  assert (Z.log2 n < 53) by (apply Z.log2_lt_pow2; lia). lia.
Qed.

(** [parseInt(text, 10)], read off the definition. *)
Lemma parseInt_decimal (s body : jsstring) (negative : bool) :
  readSign (trimStart s) = (negative, body) →
  parseInt s 10 = match radixDigits 10 body with
                  | [] => NaN
                  | ds => toNumber negative (mathInt 10 ds)
                  end.
Proof. intros E. unfold parseInt. rewrite E. reflexivity. Qed.

(** The importer's default: an empty quantity field gives the number 10. *)
Lemma csv_quantidade_default (row : CsvImporter.Row) (q : jsstring) :
  CsvImporter.quantidade row = Some q → trim q = [] →
  CsvImporter.rowQuantidade row = inr (VNumber (Int 10)).
Proof. intros Hq Hb. unfold CsvImporter.rowQuantidade. by rewrite Hq, Hb. Qed.

(** C5, amended: the quantity of every marker built by a form save is the
    Number [parseInt] reads from the quantity text: after leading white space
    and one optional sign, [NaN] when no decimal digit follows, and the
    integer that the run of digits denotes when there are one to fifteen of
    them. On import, a quantity field that is empty once trimmed gives the
    integer 10. *)
Theorem C5_quantidade_of_saved_marker (data : SaveData.Data)
    (negative : bool) (body : jsstring) (ds : list Z) :
  readSign (trimStart (SaveData.quantidade data)) = (negative, body) →
  radixDigits 10 body = ds →
  (length ds ≤ 15)%nat →
  quantidade (MapComponent.saved data)
  = VNumber match ds with
            | [] => NaN
            | _ => Int (Props.signed negative (mathInt 10 ds))
            end
  ∧ ∀ row q, CsvImporter.quantidade row = Some q → trim q = [] →
             ∃ m, CsvImporter.rowToMarker row = inr m
                  ∧ quantidade m = VNumber (Int 10).
Proof.
  intros Hsign Hds Hlen. split.
  - unfold MapComponent.saved. simpl. f_equal.
    rewrite (parseInt_decimal _ _ _ Hsign), Hds.
    destruct ds as [|d ds']; [done|].
    unfold toNumber. rewrite roundToDouble_exact; [done|].
    pose proof (radixDigits_range 10 body) as Hr. rewrite Hds in Hr.
    pose proof (mathInt_bound _ Hr Hlen). lia.
  - intros row q Hq Hb. unfold CsvImporter.rowToMarker.
    rewrite (csv_quantidade_default row q Hq Hb). by eexists.
Qed.

Lemma C5_quantidade_of_saved_marker_witness :
  readSign (trimStart (SaveData.quantidade (Props.typed " -120 kg")))
    = (true, js "120 kg")
  ∧ radixDigits 10 (js "120 kg") = [1; 2; 0]
  ∧ (length [1; 2; 0] ≤ 15)%nat
  ∧ quantidade (MapComponent.saved (Props.typed " -120 kg"))
    = VNumber (Int (-120)).
Proof.
  split; [reflexivity|]. split; [reflexivity|]. split; [simpl; lia|].
  apply (C5_quantidade_of_saved_marker (Props.typed " -120 kg")
           true (js "120 kg") [1; 2; 0]).
  - reflexivity.
  - reflexivity.
  - simpl. lia.
Defined.

(** C5 as stated fails: pressing the map and saving at once, with the
    quantity box left empty, stores a marker whose quantity is [NaN]. *)
Lemma C5_counterexample_empty_quantity :
  MapComponent.markers
    (App.view (App.run App.Web App.start [App.PressMap Props.here; App.PressSalvar]))
  = ofList [ {| type := js "mercado"; coords := Some Props.here;
                frutas := []; quantidade := VNumber NaN |} ]
  ∧ ∀ z, VNumber NaN ≠ VNumber (Int z).
Proof. split; [reflexivity | discriminate]. Qed.

(** The importer's quantity for a non-empty field is the text itself. *)
Lemma csv_quantidade_is_text :
  CsvImporter.rowQuantidade (Props.line (Some "mercado") (Some " 5 "))
  = inr (VString (js "5")).
Proof. reflexivity. Qed.

End Quantity.

(** ** The type tag of stored markers *)

Section Tags.
Import JS MakersContext.

Lemma Item_in_spread {A} (a : array A) (x : A) :
  Item x ∈ spread a → Item x ∈ a.
Proof.
  unfold spread. intros [s [E Hs]]%list_elem_of_fmap.
  destruct s; try discriminate. by rewrite E.
Qed.

Lemma Item_in_assign {A} (a : array A) (i : nat) (v x : A) :
  Item x ∈ assign a i v → x = v ∨ Item x ∈ a.
Proof.
  unfold assign. destruct (decide (i < length a)%nat) as [Hi|Hi].
  - intros [j Hj]%list_elem_of_lookup_1.
    destruct (decide (i = j)) as [->|Hne].
    + rewrite list_lookup_insert_eq in Hj by done. left. congruence.
    + rewrite list_lookup_insert_ne in Hj by done. right.
      by eapply list_elem_of_lookup_2.
  - rewrite !elem_of_app. intros [H | [H | H]].
    + by right.
    + apply elem_of_replicate in H as [? _]. discriminate.
    + apply list_elem_of_singleton in H. left. congruence.
Qed.

Lemma in_filterFrom {A} (keep : slot A → nat → bool) (k : nat) (a : array A)
    (s : slot A) :
  s ∈ filterFrom keep k a → s ∈ a.
Proof.
  revert k. induction a as [|y a IH]; intros k; simpl; [done|].
  destruct y as [| |x]; [intros H; right; eauto| |];
    (destruct (keep _ k);
     [intros [->|H]%elem_of_cons; [left | right; eauto]
     |intros H; right; eauto]).
Qed.

Lemma mapRows_types (P : jsstring → Prop) (rows : list CsvImporter.Row)
    (ms : list Marker) :
  CsvImporter.mapRows rows = inr ms →
  Forall (λ row, P (CsvImporter.rowType row)) rows →
  Forall (λ m, P (type m)) ms.
Proof.
  revert ms. induction rows as [|row rows IH]; intros ms; simpl.
  - intros [= <-] _. constructor.
  - unfold CsvImporter.rowToMarker.
    destruct (CsvImporter.rowQuantidade row) as [|q]; [discriminate|].
    destruct (CsvImporter.mapRows rows) as [|ms']; [discriminate|].
    intros [= <-] [Hrow Hrows]%Forall_cons. constructor; [done|]. by apply IH.
Qed.

Lemma knownTipo_rowType (row : CsvImporter.Row) :
  Props.knownTipo (CsvImporter.tipo row) → Props.isTag (CsvImporter.rowType row).
Proof.
  unfold CsvImporter.rowType, Props.knownTipo.
  destruct (CsvImporter.tipo row) as [t|]; [|by left].
  intros [_ [E | [E | E]]]; rewrite E; [by left | by left | by right].
Qed.

Lemma tagsKept_start : Props.tagsKept App.start.
Proof.
  split; [|split].
  - intros m H. by apply elem_of_nil in H.
  - by left.
  - discriminate.
Qed.

Lemma handleSave_keeps_tags (p : App.platform) (data : SaveData.Data)
    (v : MapComponent.State) (m : Marker) :
  Props.isTag (SaveData.tipo data) →
  (∀ m, Item m ∈ MapComponent.markers v → Props.tagged m) →
  Item m ∈ MapComponent.markers (App.onClose p (App.handleSave p data v)) →
  Props.tagged m.
Proof.
  intros Hdata Hv.
  destruct p; simpl; destruct (MapComponent.selectedMarkerIndex v); intros H.
  - apply Item_in_assign in H as [->|H]; [done|].
    by apply Hv, Item_in_spread.
  - apply elem_of_app in H as [H|H]; [by apply Hv, Item_in_spread|].
    apply list_elem_of_singleton in H. by injection H as ->.
  - by apply Hv.
  - apply elem_of_app in H as [H|H]; [by apply Hv, Item_in_spread|].
    apply list_elem_of_singleton in H. by injection H as ->.
Qed.

Lemma handleDelete_keeps_tags (p : App.platform) (v : MapComponent.State)
    (m : Marker) :
  (∀ m, Item m ∈ MapComponent.markers v → Props.tagged m) →
  Item m ∈ MapComponent.markers (App.onClose p (App.handleDelete p v)) →
  Props.tagged m.
Proof.
  intros Hv.
  destruct p; simpl;
    [unfold MapComponentWeb.handleDelete|unfold MapComponentNative.handleDelete];
    destruct (MapComponent.selectedMarkerIndex v); simpl; intros H;
    apply Hv; try done; by eapply in_filterFrom.
Qed.

Lemma step_keeps_tags (p : App.platform) (s : App.Screen) (e : App.event) :
  Props.tagsKnown e → Props.tagsKept s → Props.tagsKept (App.step p s e).
Proof.
  intros He (Hms & Hmt & Hform). unfold App.step.
  destruct (App.form s) as [f|] eqn:Ef.
  - specialize (Hform f eq_refl).
    assert (Hsame : ∀ f', Formulario.tipo f' = Formulario.tipo f →
              Props.tagsKept (App.editing s f')).
    { intros f' Hf'. split; [done|]. split; [done|].
      intros ? [= <-]. by rewrite Hf'. }
    assert (Hs : Props.tagsKept s).
    { split; [done|]. split; [done|]. rewrite Ef. by intros ? [= <-]. }
    destruct e; try done.
    + split; [done|]. split; [done|]. intros ? [= <-]. by left.
    + split; [done|]. split; [done|]. intros ? [= <-]. by right.
    + by apply Hsame.
    + by apply Hsame.
    + destruct (arrayIncludes _ _); [by apply Hsame | done].
    + destruct (arrayIncludes _ _); [by apply Hsame | done].
    + split; [|split; [by destruct p | discriminate]].
      intros m. by apply handleSave_keeps_tags.
    + split; [|split; [by destruct p | discriminate]].
      by destruct p.
    + split; [|split; [|discriminate]].
      * intros m. by apply handleDelete_keeps_tags.
      * destruct p; simpl;
          [unfold MapComponentWeb.handleDelete
          |unfold MapComponentNative.handleDelete];
          by destruct (MapComponent.selectedMarkerIndex _).
    + unfold CsvImporter.complete.
      destruct (CsvImporter.mapRows rows) as [|ms] eqn:Em; [done|].
      split; [|split; [done | simpl; by intros ? [= <-]]].
      intros m [m' [[= <-] Hin]]%list_elem_of_fmap. simpl in He.
      pose proof (mapRows_types _ _ _ Em
                    (Forall_impl _ _ _ He knownTipo_rowType)) as Hall.
      rewrite Forall_forall in Hall. by apply Hall.
  - assert (Hs : Props.tagsKept s).
    { split; [done|]. split; [done|]. rewrite Ef. discriminate. }
    destruct e; try done.
    + split; [done|]. split; [by left|]. intros ? [= <-]. by left.
    + destruct (MapComponent.markers (App.view s) !! i) as [[| |m]|] eqn:Ei;
        try done.
      assert (Props.tagged m) by (apply Hms; by eapply list_elem_of_lookup_2).
      split; [done|]. split; [done|]. by intros ? [= <-].
    + unfold CsvImporter.complete.
      destruct (CsvImporter.mapRows rows) as [|ms] eqn:Em; [done|].
      split; [|split; [done | simpl; discriminate]].
      intros m [m' [[= <-] Hin]]%list_elem_of_fmap. simpl in He.
      pose proof (mapRows_types _ _ _ Em
                    (Forall_impl _ _ _ He knownTipo_rowType)) as Hall.
      rewrite Forall_forall in Hall. by apply Hall.
Qed.

Lemma run_keeps_tags (p : App.platform) (es : list App.event) (s : App.Screen) :
  Forall Props.tagsKnown es → Props.tagsKept s → Props.tagsKept (App.run p s es).
Proof.
  revert s. induction es as [|e es IH]; intros s Hes Hs; simpl; [done|].
  apply Forall_cons in Hes as [He Hes].
  apply IH; [done|]. by apply step_keeps_tags.
Qed.

(** C4, amended: after any sequence of map presses, form actions and CSV
    imports on either platform, every marker in the store has type "mercado"
    or "produtor", provided that each imported row's [tipo] is missing, empty
    once trimmed, or (in Latin-1 characters) one of the two tags once trimmed
    and lower-cased. The form saves either a toggled tag or the type of the
    marker it was opened on; the importer checks nothing. *)
Theorem C4_known_tags_are_kept (p : App.platform) (es : list App.event)
    (m : Marker) :
  Forall Props.tagsKnown es →
  Item m ∈ MapComponent.markers (App.view (App.run p App.start es)) →
  type m = js "mercado" ∨ type m = js "produtor".
Proof.
  intros Hes Hm.
  destruct (run_keeps_tags p es App.start Hes tagsKept_start) as [Hall _].
  by apply Hall.
Qed.

Lemma C4_known_tags_are_kept_witness :
  Forall Props.tagsKnown
    [App.ImportCsv [Props.line (Some " Produtor") (Some "3")];
     App.PressMap Props.here; App.PressProdutor; App.PressSalvar]
  ∧ Item (MapComponent.saved
            {| SaveData.tipo := js "produtor"; SaveData.coords := Some Props.here;
               SaveData.frutas := []; SaveData.quantidade := [] |})
      ∈ MapComponent.markers
          (App.view
             (App.run App.Native App.start
                [App.ImportCsv [Props.line (Some " Produtor") (Some "3")];
                 App.PressMap Props.here; App.PressProdutor; App.PressSalvar]))
  ∧ (js "produtor" = js "mercado" ∨ js "produtor" = js "produtor").
Proof.
  assert (Hes : Forall Props.tagsKnown
            [App.ImportCsv [Props.line (Some " Produtor") (Some "3")];
             App.PressMap Props.here; App.PressProdutor; App.PressSalvar]).
  { apply Forall_cons. split.
    - apply Forall_cons. split; [|apply Forall_nil_2].
      split; [repeat constructor | right; right; reflexivity].
    - repeat (apply Forall_cons; split; [exact I|]). apply Forall_nil_2. }
  assert (Hin : Item (MapComponent.saved
            {| SaveData.tipo := js "produtor"; SaveData.coords := Some Props.here;
               SaveData.frutas := []; SaveData.quantidade := [] |})
      ∈ MapComponent.markers
          (App.view
             (App.run App.Native App.start
                [App.ImportCsv [Props.line (Some " Produtor") (Some "3")];
                 App.PressMap Props.here; App.PressProdutor; App.PressSalvar]))).
  { apply (list_elem_of_lookup_2 _ 1%nat). reflexivity. }
  split; [exact Hes|]. split; [exact Hin|].
  exact (C4_known_tags_are_kept App.Native _ _ Hes Hin).
Defined.

(** C4 as stated fails: importing one line whose [tipo] is "Industria" puts a
    marker of type "industria" in the store. *)
Lemma C4_counterexample_imported_tag :
  ∃ m, MapComponent.markers
         (App.view
            (App.run App.Web App.start
               [App.ImportCsv [Props.line (Some "Industria") (Some "5")]]))
       = [Item m]
       ∧ type m = js "industria"
       ∧ ¬ (type m = js "mercado" ∨ type m = js "produtor").
Proof. eexists. repeat split. intros [H|H]; discriminate H. Qed.

End Tags.

(** ** More on saving and deleting *)

Section SaveDelete.
Import JS MakersContext.

Lemma lookup_ofList {A} (l : list A) (j : nat) : ofList l !! j = Item <$> l !! j.
Proof. unfold ofList. apply list_lookup_fmap. Qed.

(** X1: on the web view, saving while an index of the list is selected puts
    the saved marker at that index, keeps the length and every other element,
    clears the selection and closes the form. *)
Theorem X1_web_save_replaces_selected (data : SaveData.Data)
    (st : MapComponent.State) (ms : list Marker) (i : nat) :
  Props.holding ms (Some i) st → (i < length ms)%nat →
  let st' := MapComponentWeb.handleSave data st in
  let ms' := <[i := MapComponent.saved data]> ms in
  MapComponent.markers st' = ofList ms'
  ∧ length ms' = length ms
  ∧ ms' !! i = Some (MapComponent.saved data)
  ∧ (∀ j, j ≠ i → ms' !! j = ms !! j)
  ∧ MapComponent.selectedMarkerIndex st' = None
  ∧ MapComponent.showForm st' = false.
Proof.
  intros Hh Hi st' ms'.
  destruct (web_handleSave_replaces data st ms i Hh Hi) as (H1 & H2 & H3 & H4).
  repeat split; done.
Qed.

Lemma X1_web_save_replaces_selected_witness :
  Props.holding [Props.feira; Props.sitio] (Some 1%nat)
    (Props.viewOf [Props.feira; Props.sitio] (Some 1%nat))
  ∧ (1 < length [Props.feira; Props.sitio])%nat
  ∧ MapComponent.markers
      (MapComponentWeb.handleSave (Props.typed "40")
         (Props.viewOf [Props.feira; Props.sitio] (Some 1%nat)))
    = ofList [Props.feira; MapComponent.saved (Props.typed "40")].
Proof.
  split; [split; reflexivity|]. split; [simpl; lia|].
  apply (X1_web_save_replaces_selected (Props.typed "40")
           (Props.viewOf [Props.feira; Props.sitio] (Some 1%nat))
           [Props.feira; Props.sitio] 1%nat).
  - split; reflexivity.
  - simpl. lia.
Defined.

(** X2: with no index selected, saving appends the saved marker on both
    views: the list is one longer, its old elements stay where they were and
    the new last element is the saved marker. *)
Theorem X2_save_appends_when_unselected (p : App.platform)
    (data : SaveData.Data) (st : MapComponent.State) (ms : list Marker) :
  Props.holding ms None st →
  let ms' := ms ++ [MapComponent.saved data] in
  MapComponent.markers (App.handleSave p data st) = ofList ms'
  ∧ length ms' = S (length ms)
  ∧ (∀ j, (j < length ms)%nat → ms' !! j = ms !! j)
  ∧ ms' !! length ms = Some (MapComponent.saved data).
Proof.
  intros Hh ms'. split; [by apply handleSave_appends|]. unfold ms'.
  split; [rewrite length_app; simpl; lia|]. split.
  - intros j Hj. by apply lookup_app_l.
  - rewrite lookup_app_r by lia. by rewrite Nat.sub_diag.
Qed.

Lemma X2_save_appends_when_unselected_witness :
  Props.holding [Props.feira] None (Props.viewOf [Props.feira] None)
  ∧ MapComponent.markers
      (App.handleSave App.Native (Props.typed "7")
         (Props.viewOf [Props.feira] None))
    = ofList [Props.feira; MapComponent.saved (Props.typed "7")].
Proof.
  split; [split; reflexivity|].
  apply (X2_save_appends_when_unselected App.Native (Props.typed "7")
           (Props.viewOf [Props.feira] None) [Props.feira]).
  split; reflexivity.
Defined.

(** X3: on the web view, saving while the selected index lies past the end
    of the list grows the array to that index: the old elements stay, the
    saved marker sits at the selected index and every slot in between is
    empty. *)
Theorem X3_web_save_past_end_leaves_holes (data : SaveData.Data)
    (st : MapComponent.State) (ms : list Marker) (i : nat) :
  Props.holding ms (Some i) st → (length ms ≤ i)%nat →
  let a := MapComponent.markers (MapComponentWeb.handleSave data st) in
  length a = S i
  ∧ a !! i = Some (Item (MapComponent.saved data))
  ∧ (∀ j, (j < length ms)%nat → a !! j = Item <$> ms !! j)
  ∧ (∀ j, (length ms ≤ j < i)%nat → a !! j = Some Hole).
Proof.
  intros [Hms Hsel] Hi a. unfold a, MapComponentWeb.handleSave. simpl.
  rewrite Hsel, Hms, spread_ofList. unfold assign. rewrite length_ofList.
  destruct (decide (i < length ms)%nat); [lia|].
  repeat split.
  - rewrite !length_app, length_ofList, length_replicate. simpl. lia.
  - rewrite lookup_app_r by (rewrite length_ofList; lia).
    rewrite lookup_app_r by (rewrite length_ofList, length_replicate; lia).
    rewrite length_ofList, length_replicate.
    by replace (i - length ms - (i - length ms))%nat with 0%nat by lia.
  - intros j Hj. rewrite lookup_app_l by (rewrite length_ofList; lia).
    apply lookup_ofList.
  - intros j Hj. rewrite lookup_app_r by (rewrite length_ofList; lia).
    rewrite lookup_app_l by (rewrite length_ofList, length_replicate; lia).
    apply lookup_replicate_2. rewrite length_ofList. lia.
Qed.

Lemma X3_web_save_past_end_leaves_holes_witness :
  Props.holding [Props.feira] (Some 3%nat) (Props.viewOf [Props.feira] (Some 3%nat))
  ∧ (length [Props.feira] ≤ 3)%nat
  ∧ MapComponent.markers
      (MapComponentWeb.handleSave (Props.typed "1")
         (Props.viewOf [Props.feira] (Some 3%nat))) !! 2%nat
    = Some Hole.
Proof.
  split; [split; reflexivity|]. split; [simpl; lia|].
  apply (X3_web_save_past_end_leaves_holes (Props.typed "1")
           (Props.viewOf [Props.feira] (Some 3%nat)) [Props.feira] 3%nat).
  - split; reflexivity.
  - simpl. lia.
  - simpl. lia.
Defined.

(** X4: on both views, delete with a selected index past the end of the list
    removes nothing; it clears the selection and closes the form. *)
Theorem X4_delete_past_end_removes_nothing (p : App.platform)
    (st : MapComponent.State) (ms : list Marker) (i : nat) :
  Props.holding ms (Some i) st → (length ms ≤ i)%nat →
  MapComponent.markers (App.handleDelete p st) = ofList ms
  ∧ MapComponent.selectedMarkerIndex (App.handleDelete p st) = None
  ∧ MapComponent.showForm (App.handleDelete p st) = false.
Proof.
  intros Hh Hi. split; [by eapply handleDelete_past_end|].
  destruct Hh as [_ Hsel].
  destruct p; simpl;
    [unfold MapComponentWeb.handleDelete|unfold MapComponentNative.handleDelete];
    rewrite Hsel; split; reflexivity.
Qed.

Lemma X4_delete_past_end_removes_nothing_witness :
  Props.holding [Props.feira] (Some 1%nat) (Props.viewOf [Props.feira] (Some 1%nat))
  ∧ (length [Props.feira] ≤ 1)%nat
  ∧ MapComponent.markers
      (App.handleDelete App.Web (Props.viewOf [Props.feira] (Some 1%nat)))
    = ofList [Props.feira].
Proof.
  split; [split; reflexivity|]. split; [simpl; lia|].
  apply (X4_delete_past_end_removes_nothing App.Web
           (Props.viewOf [Props.feira] (Some 1%nat)) [Props.feira] 1%nat).
  - split; reflexivity.
  - simpl. lia.
Defined.

Lemma step_frame (p : App.platform) (s : App.Screen) (e : App.event) :
  Traces.mutates e = false →
  MapComponent.markers (App.view (App.step p s e))
  = MapComponent.markers (App.view s).
Proof.
  intros He. unfold App.step.
  destruct (App.form s) as [f|], e; try discriminate He; simpl; try done.
  - by destruct (arrayIncludes _ _).
  - by destruct (arrayIncludes _ _).
  - by destruct p.
  - by destruct (MapComponent.markers (App.view s) !! i) as [[| |m]|].
Qed.

(** X5: pressing the map or a marker, toggling the type, typing, adding and
    removing fruit tags and cancelling never change the marker store, on
    either platform; only save, delete and a CSV import do. *)
Theorem X5_only_save_delete_import_touch_store (p : App.platform)
    (s : App.Screen) (es : list App.event) :
  Forall (λ e, Traces.mutates e = false) es →
  MapComponent.markers (App.view (App.run p s es))
  = MapComponent.markers (App.view s).
Proof.
  unfold App.run. revert s.
  induction es as [|e es IH]; intros s Hes; simpl; [done|].
  apply Forall_cons in Hes as [He Hes].
  rewrite IH by done. by apply step_frame.
Qed.

Lemma X5_only_save_delete_import_touch_store_witness :
  Forall (λ e, Traces.mutates e = false)
    [App.PressMarker 0; App.PressProdutor; App.ChangeBusca (js "ki");
     App.PressSugestao (js "Kiwi"); App.PressCancelar]
  ∧ MapComponent.markers
      (App.view
         (App.run App.Web (Traces.atRest [Props.feira] None)
            [App.PressMarker 0; App.PressProdutor; App.ChangeBusca (js "ki");
             App.PressSugestao (js "Kiwi"); App.PressCancelar]))
    = ofList [Props.feira].
Proof.
  assert (H : Forall (λ e, Traces.mutates e = false)
    [App.PressMarker 0; App.PressProdutor; App.ChangeBusca (js "ki");
     App.PressSugestao (js "Kiwi"); App.PressCancelar]).
  { repeat (apply Forall_cons; split; [reflexivity|]). apply Forall_nil_2. }
  split; [exact H|].
  exact (X5_only_save_delete_import_touch_store App.Web
           (Traces.atRest [Props.feira] None) _ H).
Defined.

End SaveDelete.

(** ** What runs of the screen keep true *)

Section Invariants.
Import JS MakersContext.

Lemma handleSave_items (p : App.platform) (P : Marker → Prop)
    (data : SaveData.Data) (v : MapComponent.State) (m : Marker) :
  P (MapComponent.saved data) →
  (∀ m, Item m ∈ MapComponent.markers v → P m) →
  Item m ∈ MapComponent.markers (App.onClose p (App.handleSave p data v)) →
  P m.
Proof.
  intros Hdata Hv.
  destruct p; simpl; destruct (MapComponent.selectedMarkerIndex v); intros H.
  - apply Item_in_assign in H as [->|H]; [done|].
    by apply Hv, Item_in_spread.
  - apply elem_of_app in H as [H|H]; [by apply Hv, Item_in_spread|].
    apply list_elem_of_singleton in H. by injection H as ->.
  - by apply Hv.
  - apply elem_of_app in H as [H|H]; [by apply Hv, Item_in_spread|].
    apply list_elem_of_singleton in H. by injection H as ->.
Qed.

Lemma handleDelete_items (p : App.platform) (P : Marker → Prop)
    (v : MapComponent.State) (m : Marker) :
  (∀ m, Item m ∈ MapComponent.markers v → P m) →
  Item m ∈ MapComponent.markers (App.onClose p (App.handleDelete p v)) →
  P m.
Proof.
  intros Hv.
  destruct p; simpl;
    [unfold MapComponentWeb.handleDelete|unfold MapComponentNative.handleDelete];
    destruct (MapComponent.selectedMarkerIndex v); simpl; intros H;
    apply Hv; try done; by eapply in_filterFrom.
Qed.

Lemma onClose_handleDelete_other (p : App.platform) (v : MapComponent.State) :
  MapComponent.newMarkerCoords (App.onClose p (App.handleDelete p v))
    = MapComponent.newMarkerCoords v
  ∧ MapComponent.frutas (App.onClose p (App.handleDelete p v))
    = MapComponent.frutas v.
Proof.
  destruct p; simpl;
    [unfold MapComponentWeb.handleDelete|unfold MapComponentNative.handleDelete];
    by destruct (MapComponent.selectedMarkerIndex v).
Qed.

Lemma mapRows_items (P : Marker → Prop) (rows : list CsvImporter.Row)
    (ms : list Marker) :
  CsvImporter.mapRows rows = inr ms →
  (∀ row m, CsvImporter.rowToMarker row = inr m → P m) →
  Forall P ms.
Proof.
  intros Hrows HP. revert ms Hrows.
  induction rows as [|row rows IH]; intros ms; simpl.
  - intros [= <-]. constructor.
  - destruct (CsvImporter.rowToMarker row) as [|m] eqn:E; [discriminate|].
    destruct (CsvImporter.mapRows rows) as [|ms']; [discriminate|].
    intros [= <-]. constructor; [by eapply HP | by apply IH].
Qed.

(** *** The selected index stays in range *)

Lemma step_selectionInRange (p : App.platform) (s : App.Screen) (e : App.event) :
  (Traces.isImport e = true → App.form s = None) →
  Traces.selectionInRange s → Traces.selectionInRange (App.step p s e).
Proof.
  intros Himp (ms & Hms & Hsel). unfold App.step.
  destruct (App.form s) as [f|] eqn:Ef.
  - assert (Hedit : ∀ f', Traces.selectionInRange (App.editing s f')).
    { intros f'. exists ms. split; [done|]. intros ? i _ Hi.
      by eapply (Hsel f). }
    assert (Hs : Traces.selectionInRange s).
    { exists ms. split; [done|]. rewrite Ef. intros ? i _ Hi.
      by eapply (Hsel f). }
    destruct e; try done.
    + destruct (arrayIncludes _ _); [apply Hedit | done].
    + destruct (arrayIncludes _ _); [apply Hedit | done].
    + destruct (MapComponent.selectedMarkerIndex (App.view s)) as [i|] eqn:Es.
      * pose proof (Hsel f i eq_refl eq_refl) as Hi.
        exists (match p with
                | App.Web =>
                  <[i := MapComponent.saved
                           (Formulario.salvar
                              (MapComponent.formProps (App.view s)) f)]> ms
                | App.Native => ms
                end).
        split; [|discriminate].
        destruct p; simpl; rewrite Es, Hms; [|done].
        by rewrite spread_ofList, assign_ofList.
      * eexists. split; [|discriminate].
        pose proof (handleSave_appends p
                      (Formulario.salvar (MapComponent.formProps (App.view s)) f)
                      (App.view s) ms (conj Hms Es)) as Happ.
        destruct p; simpl in *; exact Happ.
    + exists ms. split; [by destruct p | discriminate].
    + destruct (MapComponent.selectedMarkerIndex (App.view s)) as [i|] eqn:Es.
      * exists (take i ms ++ drop (S i) ms). split; [|discriminate].
        destruct p; simpl;
          [unfold MapComponentWeb.handleDelete
          |unfold MapComponentNative.handleDelete];
          rewrite Es; simpl; rewrite Hms;
          unfold MapComponent.without, JS.filter;
          by rewrite filterFrom_ofList_skip, Nat.sub_0_r by lia.
      * exists ms. split; [|discriminate].
        destruct p; simpl;
          [unfold MapComponentWeb.handleDelete
          |unfold MapComponentNative.handleDelete];
          by rewrite Es.
    + by specialize (Himp eq_refl).
  - assert (Hs : Traces.selectionInRange s).
    { exists ms. split; [done|]. rewrite Ef. discriminate. }
    destruct e; try done.
    + exists ms. split; [done|]. simpl. discriminate.
    + destruct (MapComponent.markers (App.view s) !! i) as [[| |m]|] eqn:Ei;
        try done.
      exists ms. split; [done|]. simpl. intros _ j _ [= <-].
      rewrite Hms in Ei. apply lookup_lt_Some in Ei.
      by rewrite length_ofList in Ei.
    + unfold CsvImporter.complete.
      destruct (CsvImporter.mapRows rows) as [|ms']; [done|].
      exists ms'. split; [done|]. simpl. discriminate.
Qed.

(** X6: on either platform, along every run from the start screen in which
    CSV imports complete only while the form is closed, the store is a dense
    list of markers and, whenever the form is shown, the selected index (if
    there is one) is an index of that list. *)
Theorem X6_selection_stays_in_range (p : App.platform) (es : list App.event) :
  Traces.importsWhileClosed p App.start es →
  Traces.selectionInRange (App.run p App.start es).
Proof.
  assert (Hgen : ∀ s, Traces.importsWhileClosed p s es →
            Traces.selectionInRange s →
            Traces.selectionInRange (App.run p s es)).
  { unfold App.run. induction es as [|e es IH]; intros s Hq Hs; simpl; [done|].
    destruct Hq as [He Hq]. apply IH; [done|].
    by apply step_selectionInRange. }
  intros Hq. apply Hgen; [done|].
  exists []. split; [done|]. discriminate.
Qed.

Lemma X6_selection_stays_in_range_witness :
  Traces.importsWhileClosed App.Web App.start
    [App.ImportCsv [Props.line (Some "mercado") (Some "5")];
     App.PressMarker 0; App.PressExcluir; App.PressMap Props.here]
  ∧ Traces.selectionInRange
      (App.run App.Web App.start
         [App.ImportCsv [Props.line (Some "mercado") (Some "5")];
          App.PressMarker 0; App.PressExcluir; App.PressMap Props.here]).
Proof.
  assert (H : Traces.importsWhileClosed App.Web App.start
    [App.ImportCsv [Props.line (Some "mercado") (Some "5")];
     App.PressMarker 0; App.PressExcluir; App.PressMap Props.here]).
  { simpl. repeat split; discriminate. }
  split; [exact H|].
  exact (X6_selection_stays_in_range App.Web _ H).
Defined.

(** *** Stored markers have coordinates *)

Lemma rowToMarker_coords (row : CsvImporter.Row) (m : Marker) :
  CsvImporter.rowToMarker row = inr m → is_Some (coords m).
Proof.
  unfold CsvImporter.rowToMarker.
  destruct (CsvImporter.rowQuantidade row); [discriminate|].
  intros [= <-]. by eexists.
Qed.

Lemma imported_items (P : Marker → Prop) (rows : list CsvImporter.Row)
    (a : array Marker) (m : Marker) :
  CsvImporter.complete rows = Some a →
  (∀ row m, CsvImporter.rowToMarker row = inr m → P m) →
  Item m ∈ a → P m.
Proof.
  unfold CsvImporter.complete.
  destruct (CsvImporter.mapRows rows) as [|ms] eqn:Em; [discriminate|].
  intros [= <-] HP [m' [[= <-] Hin]]%list_elem_of_fmap.
  pose proof (mapRows_items P rows ms Em HP) as Hall.
  rewrite Forall_forall in Hall. by apply Hall.
Qed.

Lemma step_coordsKept (p : App.platform) (s : App.Screen) (e : App.event) :
  Traces.coordsKept s → Traces.coordsKept (App.step p s e).
Proof.
  intros [Hms Hform]. unfold App.step.
  destruct (App.form s) as [f|] eqn:Ef.
  - specialize (Hform f eq_refl).
    assert (Hedit : ∀ f', Traces.coordsKept (App.editing s f')).
    { intros f'. split; [done|]. by intros ? _. }
    assert (Hs : Traces.coordsKept s).
    { split; [done|]. by intros ? _. }
    destruct e; try done.
    + destruct (arrayIncludes _ _); [apply Hedit | done].
    + destruct (arrayIncludes _ _); [apply Hedit | done].
    + split; [|discriminate]. intros m.
      by apply (handleSave_items p (λ m, is_Some (coords m))).
    + split; [|discriminate]. by destruct p.
    + split; [|discriminate]. intros m.
      by apply (handleDelete_items p (λ m, is_Some (coords m))).
    + destruct (CsvImporter.complete rows) as [a|] eqn:Ea; [|done].
      split; [|by intros ? _]. intros m. simpl.
      apply (imported_items (λ m, is_Some (coords m)) rows a m Ea). apply rowToMarker_coords.
  - assert (Hs : Traces.coordsKept s).
    { split; [done|]. rewrite Ef. discriminate. }
    destruct e; try done.
    + destruct (MapComponent.markers (App.view s) !! i) as [[| |m]|] eqn:Ei;
        try done.
      split; [done|]. intros ? _. simpl.
      apply Hms. by eapply list_elem_of_lookup_2.
    + destruct (CsvImporter.complete rows) as [a|] eqn:Ea; [|done].
      split; [|discriminate]. intros m. simpl.
      apply (imported_items (λ m, is_Some (coords m)) rows a m Ea). apply rowToMarker_coords.
Qed.

(** X7: on either platform and after any sequence of events whatever, CSV
    imports included, every marker in the store has coordinates: none is
    saved with [coords] null. *)
Theorem X7_stored_markers_have_coords (p : App.platform)
    (es : list App.event) (m : Marker) :
  Item m ∈ MapComponent.markers (App.view (App.run p App.start es)) →
  ∃ c, coords m = Some c.
Proof.
  assert (Hgen : ∀ s, Traces.coordsKept s → Traces.coordsKept (App.run p s es)).
  { unfold App.run. induction es as [|e es IH]; intros s Hs; simpl; [done|].
    apply IH. by apply step_coordsKept. }
  intros Hm. destruct (Hgen App.start) as [Hall _].
  - split; [|discriminate]. intros ? H. by apply elem_of_nil in H.
  - by apply Hall.
Qed.

Lemma X7_stored_markers_have_coords_witness :
  Item (MapComponent.saved
          {| SaveData.tipo := js "mercado"; SaveData.coords := Some Props.here;
             SaveData.frutas := []; SaveData.quantidade := js "8" |})
    ∈ MapComponent.markers
        (App.view
           (App.run App.Native App.start
              [App.PressMap Props.here; App.ChangeQuantidade (js "8");
               App.PressSalvar]))
  ∧ ∃ c, Some Props.here = Some c.
Proof.
  assert (Hin : Item (MapComponent.saved
          {| SaveData.tipo := js "mercado"; SaveData.coords := Some Props.here;
             SaveData.frutas := []; SaveData.quantidade := js "8" |})
    ∈ MapComponent.markers
        (App.view
           (App.run App.Native App.start
              [App.PressMap Props.here; App.ChangeQuantidade (js "8");
               App.PressSalvar]))).
  { apply (list_elem_of_lookup_2 _ 0%nat). reflexivity. }
  split; [exact Hin|].
  exact (X7_stored_markers_have_coords App.Native _ _ Hin).
Defined.

(** *** Without imports, stored markers are form-built *)

Lemma filter_sublist (keep : jsstring → bool) (l : list jsstring) :
  sublist (List.filter keep l) l.
Proof.
  induction l as [|x l IH]; simpl; [constructor|].
  destruct (keep x); by constructor.
Qed.

Lemma fromVocabulary_nil : Traces.fromVocabulary [].
Proof. split; [constructor|]. intros f H. by apply elem_of_nil in H. Qed.

Lemma fromVocabulary_filter (keep : jsstring → bool) (fs : list jsstring) :
  Traces.fromVocabulary fs → Traces.fromVocabulary (List.filter keep fs).
Proof.
  intros [Hnd Hin]. split.
  - eapply sublist_NoDup; [exact Hnd | apply filter_sublist].
  - intros f Hf. apply Hin. eapply elem_of_sublist; [exact Hf|].
    apply filter_sublist.
Qed.

Lemma sugestoes_elem (st : Formulario.State) (f : jsstring) :
  f ∈ Formulario.sugestoes st →
  f ∈ Formulario.frutasDisponiveis ∧ f ∉ Formulario.selecionadas st.
Proof.
  unfold Formulario.sugestoes. destruct (Formulario.busca st) eqn:Eb.
  - by intros ?%elem_of_nil.
  - intros H%frutasFiltradas_elem. tauto.
Qed.

Lemma fromVocabulary_suggested (st : Formulario.State) (f : jsstring) :
  Traces.fromVocabulary (Formulario.selecionadas st) →
  f ∈ Formulario.sugestoes st →
  Traces.fromVocabulary (Formulario.selecionadas st ++ [f]).
Proof.
  intros [Hnd Hin] [Hv Hnot]%sugestoes_elem. split.
  - apply NoDup_app. split; [done|]. split; [|apply NoDup_singleton].
    intros x Hx ->%list_elem_of_singleton. done.
  - intros x [Hx | ->%list_elem_of_singleton]%elem_of_app; auto.
Qed.

Lemma mount_fromVocabulary (v : MapComponent.State) :
  (∀ fs, MapComponent.frutas v = Some fs → Traces.fromVocabulary fs) →
  Traces.fromVocabulary
    (Formulario.selecionadas (Formulario.mount (MapComponent.formProps v))).
Proof.
  intros Hv. simpl.
  destruct (MapComponent.newMarkerCoords v); [|apply fromVocabulary_nil].
  destruct (MapComponent.frutas v) as [fs|]; [by apply Hv|].
  apply fromVocabulary_nil.
Qed.

Lemma step_formBuiltKept (p : App.platform) (s : App.Screen) (e : App.event) :
  Traces.isImport e = false →
  Traces.formBuiltKept s → Traces.formBuiltKept (App.step p s e).
Proof.
  intros He (Hms & Hfs & Hform). unfold App.step.
  destruct (App.form s) as [f|] eqn:Ef.
  - specialize (Hform f eq_refl).
    assert (Hedit : ∀ f', Traces.fromVocabulary (Formulario.selecionadas f') →
              Traces.formBuiltKept (App.editing s f')).
    { intros f' Hf'. split; [done|]. split; [done|]. by intros ? [= <-]. }
    assert (Hs : Traces.formBuiltKept s).
    { split; [done|]. split; [done|]. rewrite Ef. by intros ? [= <-]. }
    destruct e; try done; try discriminate He.
    + by apply Hedit.
    + by apply Hedit.
    + by apply Hedit.
    + by apply Hedit.
    + destruct (arrayIncludes _ _) eqn:Einc; [|done].
      apply Hedit. simpl. apply fromVocabulary_suggested; [done|].
      by apply arrayIncludes_elem.
    + destruct (arrayIncludes _ _); [|done].
      apply Hedit. simpl. by apply fromVocabulary_filter.
    + split; [|split; [by destruct p | discriminate]].
      intros m. apply (handleSave_items p Traces.formBuilt); [|done].
      split; [done | by eexists].
    + split; [|split; [by destruct p | discriminate]]. by destruct p.
    + split; [|split; [|discriminate]].
      * intros m. by apply (handleDelete_items p Traces.formBuilt).
      * intros fs Hfs'. apply Hfs. rewrite <- Hfs'. symmetry.
        apply (proj2 (onClose_handleDelete_other p (App.view s))).
  - assert (Hs : Traces.formBuiltKept s).
    { split; [done|]. split; [done|]. rewrite Ef. discriminate. }
    destruct e; try done; try discriminate He.
    + split; [done|]. split; [discriminate|]. intros ? [= <-].
      apply fromVocabulary_nil.
    + destruct (MapComponent.markers (App.view s) !! i) as [[| |m]|] eqn:Ei;
        try done.
      assert (Traces.formBuilt m) as [Hm _]
        by (apply Hms; by eapply list_elem_of_lookup_2).
      split; [done|]. split; [by intros ? [= <-]|]. intros ? [= <-].
      apply mount_fromVocabulary. by intros ? [= <-].
Qed.

(** X8: on either platform, after any sequence of events without a CSV
    import, every marker in the store carries pairwise distinct fruits, all
    from the fixed vocabulary, and a Number (never a string) as its
    quantity. *)
Theorem X8_form_built_markers (p : App.platform) (es : list App.event)
    (m : Marker) :
  Forall (λ e, Traces.isImport e = false) es →
  Item m ∈ MapComponent.markers (App.view (App.run p App.start es)) →
  NoDup (frutas m)
  ∧ (∀ f, f ∈ frutas m → f ∈ Formulario.frutasDisponiveis)
  ∧ ∃ n, quantidade m = VNumber n.
Proof.
  assert (Hgen : ∀ s, Forall (λ e, Traces.isImport e = false) es →
            Traces.formBuiltKept s → Traces.formBuiltKept (App.run p s es)).
  { unfold App.run. induction es as [|e es IH]; intros s Hes Hs; simpl; [done|].
    apply Forall_cons in Hes as [He Hes].
    apply IH; [done|]. by apply step_formBuiltKept. }
  intros Hes Hm. destruct (Hgen App.start Hes) as [Hall _].
  - split; [|split; discriminate]. intros ? H. by apply elem_of_nil in H.
  - destruct (Hall m Hm) as [[Hnd Hin] Hq]. done.
Qed.

Lemma X8_form_built_markers_witness :
  Forall (λ e, Traces.isImport e = false)
    [App.PressMap Props.here; App.ChangeBusca (js "ki");
     App.PressSugestao (js "Kiwi"); App.PressSalvar]
  ∧ Item (MapComponent.saved
            {| SaveData.tipo := js "mercado"; SaveData.coords := Some Props.here;
               SaveData.frutas := [js "Kiwi"]; SaveData.quantidade := [] |})
      ∈ MapComponent.markers
          (App.view
             (App.run App.Web App.start
                [App.PressMap Props.here; App.ChangeBusca (js "ki");
                 App.PressSugestao (js "Kiwi"); App.PressSalvar]))
  ∧ NoDup [js "Kiwi"].
Proof.
  assert (Hes : Forall (λ e, Traces.isImport e = false)
    [App.PressMap Props.here; App.ChangeBusca (js "ki");
     App.PressSugestao (js "Kiwi"); App.PressSalvar]).
  { repeat (apply Forall_cons; split; [reflexivity|]). apply Forall_nil_2. }
  assert (Hin : Item (MapComponent.saved
            {| SaveData.tipo := js "mercado"; SaveData.coords := Some Props.here;
               SaveData.frutas := [js "Kiwi"]; SaveData.quantidade := [] |})
      ∈ MapComponent.markers
          (App.view
             (App.run App.Web App.start
                [App.PressMap Props.here; App.ChangeBusca (js "ki");
                 App.PressSugestao (js "Kiwi"); App.PressSalvar]))).
  { apply (list_elem_of_lookup_2 _ 0%nat). reflexivity. }
  split; [exact Hes|]. split; [exact Hin|].
  exact (proj1 (X8_form_built_markers App.Web _ _ Hes Hin)).
Defined.

End Invariants.

(** ** More on the marker form *)

Section FormTags.
Import JS MakersContext.

(** X9: removing a fruit tag removes every occurrence of it and nothing
    else: the fruit is gone, the other fruits stay in their order, and
    removing it a second time changes nothing. *)
Theorem X9_removerFruta_removes_all (st : Formulario.State) (fruta : jsstring) :
  let st' := Formulario.removerFruta fruta st in
  (fruta ∉ Formulario.selecionadas st')
  ∧ (∀ g, g ≠ fruta →
          (g ∈ Formulario.selecionadas st' ↔ g ∈ Formulario.selecionadas st))
  ∧ sublist (Formulario.selecionadas st') (Formulario.selecionadas st)
  ∧ Formulario.removerFruta fruta st' = st'.
Proof.
  intros st'.
  assert (Hin : ∀ g, g ∈ Formulario.selecionadas st' ↔
                     g ∈ Formulario.selecionadas st ∧ g ≠ fruta).
  { intros g. unfold st'. simpl.
    rewrite list_elem_of_In, List.filter_In, <- list_elem_of_In.
    rewrite negb_true_iff, <- not_true_iff_false, jsstring_eqb_eq. done. }
  assert (Hgone : fruta ∉ Formulario.selecionadas st').
  { intros H. apply Hin in H as [_ H]. done. }
  split; [done|]. split; [|split].
  - intros g Hg. rewrite Hin. tauto.
  - apply filter_sublist.
  - unfold Formulario.removerFruta at 1. rewrite filter_other_id by done.
    reflexivity.
Qed.

(** X10: once a fruit has been added, the search box is empty and no
    suggestion is shown; and whatever is typed next, that fruit is not
    suggested again while it stays selected. *)
Theorem X10_added_fruit_not_suggested (st : Formulario.State)
    (fruta busca : jsstring) :
  Formulario.busca (Formulario.adicionarFruta fruta st) = []
  ∧ Formulario.sugestoes (Formulario.adicionarFruta fruta st) = []
  ∧ fruta ∉ Formulario.sugestoes
              (Formulario.setBusca busca (Formulario.adicionarFruta fruta st)).
Proof.
  split; [done|]. split; [done|].
  intros [_ Hnot]%sugestoes_elem. apply Hnot. simpl.
  apply elem_of_app. right. by left.
Qed.

End FormTags.

(** ** Flows through the screen *)

Section Flows.
Import JS MakersContext.


Lemma step_pressMarker (p : App.platform) (s : App.Screen) (i : nat)
    (m : Marker) :
  App.form s = None →
  MapComponent.markers (App.view s) !! i = Some (Item m) →
  App.step p s (App.PressMarker i)
  = App.opened (MapComponent.pressMarker i m (App.view s)).
Proof. intros Hform Hi. unfold App.step. by rewrite Hform, Hi. Qed.

Lemma step_salvar (p : App.platform) (s : App.Screen) (f : Formulario.State) :
  App.form s = Some f →
  App.step p s App.PressSalvar
  = App.closed
      (App.onClose p
         (App.handleSave p
            (Formulario.salvar (MapComponent.formProps (App.view s)) f)
            (App.view s))).
Proof. intros Hform. unfold App.step. by rewrite Hform. Qed.

(** X14: pressing a stored marker (one that has coordinates) and saving at
    once, without typing a quantity, rewrites that marker on the web view
    with its type, coordinates and fruits kept and its quantity turned into
    [NaN]; on the native view the store is left as it was. Either way the
    form is closed. *)
Theorem X14_resave_resets_quantity (p : App.platform) (s : App.Screen)
    (ms : list Marker) (i : nat) (m : Marker) (c : LatLng) :
  Traces.closedOver ms s → ms !! i = Some m → coords m = Some c →
  let s' := App.run p s [App.PressMarker i; App.PressSalvar] in
  MapComponent.markers (App.view s')
  = ofList match p with
           | App.Web => <[i := Traces.unquantified m]> ms
           | App.Native => ms
           end
  ∧ App.form s' = None.
Proof.
  intros [Hform Hms] Hm Hc s'. unfold s', App.run. cbn [foldl].
  rewrite (step_pressMarker p s i m Hform)
    by (by rewrite Hms, lookup_ofList, Hm).
  erewrite step_salvar by reflexivity.
  split; [|reflexivity].
  destruct p; simpl; rewrite Hms; [|done].
  rewrite spread_ofList, assign_ofList by (by eapply lookup_lt_Some).
  do 2 f_equal. unfold MapComponent.saved, Traces.unquantified. simpl.
  by rewrite Hc.
Qed.

Lemma X14_resave_resets_quantity_witness :
  Traces.closedOver [Props.feira; Props.sitio]
    (Traces.atRest [Props.feira; Props.sitio] None)
  ∧ [Props.feira; Props.sitio] !! 1%nat = Some Props.sitio
  ∧ coords Props.sitio = Some Props.here
  ∧ MapComponent.markers
      (App.view
         (App.run App.Web (Traces.atRest [Props.feira; Props.sitio] None)
            [App.PressMarker 1; App.PressSalvar]))
    = ofList [Props.feira; Traces.unquantified Props.sitio].
Proof.
  split; [split; reflexivity|]. split; [reflexivity|]. split; [reflexivity|].
  apply (X14_resave_resets_quantity App.Web
           (Traces.atRest [Props.feira; Props.sitio] None)
           [Props.feira; Props.sitio] 1%nat Props.sitio Props.here).
  - split; reflexivity.
  - reflexivity.
  - reflexivity.
Defined.





End Flows.

(** ** More on the CSV import *)

Section CsvImport.
Import JS MakersContext CsvImporter.

Lemma mapRows_Forall2 (rows : list Row) (ms : list Marker) :
  mapRows rows = inr ms →
  Forall2 (λ row m, rowToMarker row = inr m) rows ms.
Proof.
  revert ms. induction rows as [|row rows IH]; intros ms; simpl.
  - intros [= <-]. constructor.
  - destruct (rowToMarker row) as [|m] eqn:E; [discriminate|].
    destruct (mapRows rows) as [|ms']; [discriminate|].
    intros [= <-]. constructor; [done | by apply IH].
Qed.

Lemma complete_None (rows : list Row) :
  complete rows = None ↔
  ∃ row, row ∈ rows ∧ CsvImporter.quantidade row = None.
Proof.
  rewrite <- mapRows_throws. unfold complete.
  destruct (mapRows rows) as [[]|ms]; split; done.
Qed.

Lemma complete_Some (rows : list Row) (a : array Marker) :
  complete rows = Some a →
  ∃ ms, a = ofList ms
        ∧ length ms = length rows
        ∧ Forall2 (λ row m, rowToMarker row = inr m) rows ms.
Proof.
  unfold complete.
  destruct (mapRows rows) as [|ms] eqn:Em; [discriminate|].
  intros [= <-]. exists ms. split; [done|].
  pose proof (mapRows_Forall2 rows ms Em) as H.
  split; [|done]. symmetry. by eapply Forall2_length.
Qed.

(** X11: a CSV import is all or nothing. The [complete] callback hands no
    markers on exactly when some row lacks [quantidade]; otherwise it hands
    on one marker per row, in row order, each the mapping of its row. *)
Theorem X11_import_all_or_nothing (rows : list Row) :
  (complete rows = None ↔
     ∃ row, row ∈ rows ∧ CsvImporter.quantidade row = None)
  ∧ (∀ a, complete rows = Some a →
          ∃ ms, a = ofList ms
                ∧ length ms = length rows
                ∧ Forall2 (λ row m, rowToMarker row = inr m) rows ms).
Proof. split; [apply complete_None | apply complete_Some]. Qed.

(** X13: at the screen, a CSV import with a row that lacks [quantidade]
    changes nothing at all; an import whose rows all have it replaces the
    whole store by the mapped rows (the markers held before are gone) and
    leaves the form and the selected index as they were. *)
Theorem X13_import_replaces_store (p : App.platform) (s : App.Screen)
    (rows : list Row) :
  ((∃ row, row ∈ rows ∧ CsvImporter.quantidade row = None) →
   App.step p s (App.ImportCsv rows) = s)
  ∧ ((∀ row, row ∈ rows → is_Some (CsvImporter.quantidade row)) →
     ∃ ms, Forall2 (λ row m, rowToMarker row = inr m) rows ms
           ∧ MapComponent.markers (App.view (App.step p s (App.ImportCsv rows)))
             = ofList ms
           ∧ App.form (App.step p s (App.ImportCsv rows)) = App.form s
           ∧ MapComponent.selectedMarkerIndex
               (App.view (App.step p s (App.ImportCsv rows)))
             = MapComponent.selectedMarkerIndex (App.view s)).
Proof.
  split.
  - intros Hbad%complete_None. unfold App.step. rewrite Hbad.
    by destruct (App.form s).
  - intros Hall.
    destruct (complete rows) as [a|] eqn:Ea.
    + destruct (complete_Some rows a Ea) as (ms & -> & _ & HF).
      exists ms. split; [done|]. unfold App.step. rewrite Ea.
      by destruct (App.form s).
    + apply complete_None in Ea as (row & Hin & Hq).
      destruct (Hall row Hin) as [q Hq']. congruence.
Qed.

(** *** The fruit list of a row *)

Lemma trimStart_suffix (s : jsstring) : ∃ ws, s = ws ++ trimStart s.
Proof.
  induction s as [|c s [ws IH]]; simpl; [by exists []|].
  destruct (isWhiteSpace c).
  - exists (c :: ws). simpl. by rewrite <- IH.
  - by exists [].
Qed.

Lemma head_trimStart (s : jsstring) (c : N) :
  head (trimStart s) = Some c → isWhiteSpace c = false.
Proof.
  induction s as [|d s IH]; simpl; [done|].
  destruct (isWhiteSpace d) eqn:E; [done|]. simpl. by intros [= <-].
Qed.

Lemma trim_trimmed (s : jsstring) : Traces.trimmed (trim s).
Proof.
  unfold Traces.trimmed, trim, trimEnd. intros c.
  rewrite head_reverse, last_reverse.
  destruct (trimStart_suffix (reverse (trimStart s))) as [ws Hws].
  intros [Hlast | Hhead]; [|by eapply head_trimStart].
  apply (head_trimStart s).
  rewrite <- last_reverse, Hws, last_app. by rewrite Hlast.
Qed.

Lemma elem_of_trim (s : jsstring) (c : N) : c ∈ trim s → c ∈ s.
Proof.
  unfold trim, trimEnd. rewrite elem_of_reverse. intros H.
  destruct (trimStart_suffix (reverse (trimStart s))) as [ws Hws].
  assert (c ∈ reverse (trimStart s)) as H1
    by (rewrite Hws; apply elem_of_app; by right).
  rewrite elem_of_reverse in H1.
  destruct (trimStart_suffix s) as [ws' Hws']. rewrite Hws'.
  apply elem_of_app. by right.
Qed.

Lemma split_length (sep : N) (s : jsstring) :
  length (split sep s) = S (Traces.occurrences sep s).
Proof.
  unfold Traces.occurrences. induction s as [|c s IH]; simpl; [done|].
  destruct (c =? sep); simpl; [by rewrite IH|].
  destruct (split sep s); simpl in *; done.
Qed.

Lemma split_no_sep (sep : N) (s : jsstring) :
  Forall (λ piece, sep ∉ piece) (split sep s).
Proof.
  induction s as [|c s IH]; simpl.
  - constructor; [by intros ?%elem_of_nil | constructor].
  - destruct (N.eqb_spec c sep) as [->|Hne].
    + constructor; [by intros ?%elem_of_nil | done].
    + destruct (split sep s) as [|piece rest].
      * constructor; [|constructor].
        intros [->|?%elem_of_nil]%elem_of_cons; done.
      * apply Forall_cons in IH as [Hp Hrest]. constructor; [|done].
        intros [->|?]%elem_of_cons; done.
Qed.

(** X12: the fruit list of a row is empty exactly when [produtos] is missing
    or the empty string. Otherwise it has one fruit more than [produtos] has
    commas (so at least one, possibly an empty name), and no fruit contains
    a comma or begins or ends with white space. *)
Theorem X12_fruits_of_row (row : Row) :
  (rowFrutas row = [] ↔ produtos row = None ∨ produtos row = Some [])
  ∧ (∀ p, produtos row = Some p → p ≠ [] →
          length (rowFrutas row) = S (Traces.occurrences 0x2C p)
          ∧ Forall (λ f, (0x2C ∉ f) ∧ Traces.trimmed f) (rowFrutas row)).
Proof.
  unfold rowFrutas. split.
  - destruct (produtos row) as [[|c p]|]; [tauto| |tauto].
    split; [|intros [|]; discriminate].
    intros H. apply (f_equal length) in H.
    rewrite length_map, split_length in H. discriminate.
  - intros p -> Hp. destruct p as [|c p]; [done|]. split.
    + by rewrite length_map, split_length.
    + apply Forall_map.
      eapply Forall_impl; [apply split_no_sep|].
      intros piece Hpiece. simpl. split; [|apply trim_trimmed].
      intros H. by apply Hpiece, elem_of_trim.
Qed.

End CsvImport.

(** ** The two map views side by side *)

Section Platforms.
Import JS MakersContext.




End Platforms.
